(** * ML service of the supply-chain cost analyzer: forecasting, reliability
    scoring and history augmentation.

    A shallow embedding of [ml-service/models/arima_model.py],
    [ml-service/models/rf_model.py], [ml-service/data/synthetic.py],
    [ml-service/data/preprocessor.py] and the registry and endpoints of
    [ml-service/main.py].

    Modelling conventions.
    - Python floats are exact rationals ([Q]); the one non-number that the
      code can produce on the paths modelled here, the NaN of an empty
      mean, is [None] of [option Q].
    - A pandas [Timestamp] is an integer number of seconds since the epoch;
      a calendar date (the index of a daily series) is a day number since
      the epoch.
    - A Python exception is a value of [exn]: its class name and message.
      A function that can raise returns [exn + A].
    - statsmodels, scikit-learn, the database and the random generators are
      outside the repository: they enter as parameters (an arbitrary fitting
      oracle, an arbitrary classifier, an arbitrary tape of random draws). *)

From Stdlib Require Import ZArith QArith Qround Qabs List String Ascii Bool Arith.
From Stdlib Require Import Lia Permutation Sorted DecimalString.
Import ListNotations.

Open Scope string_scope.
Open Scope Z_scope.

(** ** Python values and exceptions *)

Record exn : Type := mkExn { exn_class : string; exn_msg : string }.

Definition ValueError (msg : string) : exn := mkExn "ValueError" msg.
Definition IndexError (msg : string) : exn := mkExn "IndexError" msg.
Definition KeyError (msg : string) : exn := mkExn "KeyError" msg.
Definition HTTPException (status : Z) (detail : string) : exn :=
  mkExn "HTTPException"
        (NilZero.string_of_int (Z.to_int status) ++ ": " ++ detail).

Definition result (A : Type) : Type := (exn + A)%type.

Definition is_raise {A} (r : result A) : bool :=
  match r with inl _ => true | inr _ => false end.

(** ** Numbers *)

Definition Qltb (a b : Q) : bool := negb (Qle_bool b a).
Definition Qgtb (a b : Q) : bool := Qltb b a.

(** [int(x)]: truncation toward zero. *)
Definition py_int (q : Q) : Z := Z.quot (Qnum q) (Z.pos (Qden q)).

(** Rounding to the nearest integer, ties to even ([round], [format]). *)
Definition round_half_even (q : Q) : Z :=
  let f := Qfloor q in
  match Qcompare (q - inject_Z f) (1 # 2) with
  | Lt => f
  | Gt => f + 1
  | Eq => if Z.even f then f else f + 1
  end.

(** [round(x, 1)] *)
Definition py_round1 (q : Q) : Q :=
  Qred (inject_Z (round_half_even (q * 10)) / 10).

Definition dec (z : Z) : string := NilZero.string_of_int (Z.to_int z).

(** [f"{x:+.1f}"]; [None] is NaN. *)
Definition fmt_plus_1f (x : option Q) : string :=
  match x with
  | None => "+nan"
  | Some q =>
      let t := Z.abs (round_half_even (q * 10)) in
      (if Qltb q 0 then "-" else "+") ++ dec (t / 10) ++ "." ++ dec (t mod 10)
  end.

Definition Qsum (l : list Q) : Q := fold_right Qplus 0%Q l.

(** [Series.mean()]: NaN on an empty series. *)
Definition mean (l : list Q) : option Q :=
  match l with
  | [] => None
  | _ => Some (Qsum l / inject_Z (Z.of_nat (List.length l)))%Q
  end.

(** ** Calendar *)

Definition day_seconds : Z := 86400.

(** [ts.dt.date]: the calendar day of a timestamp. *)
Definition date_of (ts : Z) : Z := ts / day_seconds.

(** Month and day of month of a day number (proleptic Gregorian calendar). *)
Definition month_day (d : Z) : Z * Z :=
  let z := d + 719468 in
  let era := z / 146097 in
  let doe := z - era * 146097 in
  let yoe := (doe - doe / 1460 + doe / 36524 - doe / 146096) / 365 in
  let doy := doe - (365 * yoe + yoe / 4 - yoe / 100) in
  let mp := (5 * doy + 2) / 153 in
  let dd := doy - (153 * mp + 2) / 5 + 1 in
  let m := if mp <? 10 then mp + 3 else mp - 9 in
  (m, dd).

Definition month_abbr (m : Z) : string :=
  nth (Z.to_nat (m - 1))
      ["Jan"; "Feb"; "Mar"; "Apr"; "May"; "Jun";
       "Jul"; "Aug"; "Sep"; "Oct"; "Nov"; "Dec"] "".

(** [date.strftime('%b %d')] *)
Definition strftime_b_d (d : Z) : string :=
  let '(m, dd) := month_day d in
  month_abbr m ++ " " ++ (if dd <? 10 then "0" else "") ++ dec dd.

(** ** Daily series and forecast frames *)

(** A pandas Series indexed by dates: the index labels and values in
    storage order, and whether the index carries the daily frequency. *)
Record Series : Type := mkSeries {
  s_data : list (Z * Q);
  s_freq : bool
}.

Definition s_index (s : Series) : list Z := map fst (s_data s).
Definition s_values (s : Series) : list Q := map snd (s_data s).

(** The last observed date of a series. *)
Definition last_date (s : Series) : Z := last (s_index s) 0.

Fixpoint lookup_day (d : Z) (l : list (Z * Q)) : option Q :=
  match l with
  | [] => None
  | (k, v) :: r => if k =? d then Some v else lookup_day d r
  end.

Definition list_min (x : Z) (l : list Z) : Z := fold_right Z.min x l.
Definition list_max (x : Z) (l : list Z) : Z := fold_right Z.max x l.

(** The days from [lo] to [hi], both included. *)
Definition day_range (lo hi : Z) : list Z :=
  map (fun i => lo + Z.of_nat i) (seq 0 (Z.to_nat (hi - lo + 1))).

Fixpoint has_dup (l : list Z) : bool :=
  match l with
  | [] => false
  | x :: r => existsb (Z.eqb x) r || has_dup r
  end.

(** [series.asfreq('D').fillna(0)]: every day between the first and the
    last label, absent days holding 0; pandas refuses an index with
    duplicate labels. *)
Definition asfreq_D_fillna0 (s : Series) : result Series :=
  match s_index s with
  | [] => inr (mkSeries [] true)
  | d0 :: ds =>
      if has_dup (d0 :: ds) then
        inl (ValueError "cannot reindex on an axis with duplicate labels")
      else
        let lo := list_min d0 ds in
        let hi := list_max d0 ds in
        inr (mkSeries
               (map (fun d => (d, match lookup_day d (s_data s) with
                                  | Some v => v
                                  | None => 0%Q
                                  end))
                    (day_range lo hi))
               true)
  end.

(** [if series.index.freq is None: series = series.asfreq('D').fillna(0)] *)
Definition ensure_freq (series : Series) : result Series :=
  if s_freq series then inr series else asfreq_D_fillna0 series.

(** One row of a forecast: the date label and the columns. *)
Record FRow : Type := mkFRow {
  f_date : Z;
  f_mean : Q;
  f_lower : Q;
  f_upper : Q
}.

Definition DataFrame : Type := list FRow.

(** One row of statsmodels' [summary_frame()]. *)
Record SummaryRow : Type := mkSummaryRow {
  sm_date : Z;
  sm_mean : Q;
  sm_mean_se : Q;
  sm_mean_ci_lower : Q;
  sm_mean_ci_upper : Q
}.

(** ** The error monad of fallible code *)

Definition rbind {A B} (r : result A) (k : A -> result B) : result B :=
  match r with
  | inl e => inl e
  | inr a => k a
  end.

Declare Scope result_scope.
Delimit Scope result_scope with result.
Notation "x <- e ;; k" := (rbind e (fun x => k))
  (at level 100, e at next level, right associativity) : result_scope.

(** ** statsmodels, as far as [ArimaModel] uses it *)

Definition Order : Type := (Z * Z * Z)%type.

(** The object [ARIMA(series, order=...)]: it keeps its training series. *)
Record ARIMA : Type := mkARIMA {
  endog : Series;
  arima_order : Order
}.

(** The object returned by [ARIMA.fit()]. *)
Record ARIMAResults : Type := mkARIMAResults {
  res_model : ARIMA;
  res_params : list Q;
  aic : Q
}.

(** What statsmodels decides: whether the constructor accepts a series and
    an order, whether the fit converges and to what, and the numbers it
    forecasts at each horizon (mean, standard error, interval bounds). *)
Record Statsmodels : Type := mkStatsmodels {
  arima_check : Series -> Order -> option exn;
  arima_fit : ARIMA -> result (list Q * Q);
  arima_predict : ARIMAResults -> nat -> Q * Q * Q * Q
}.

(** Modelled from the spec: [results.get_forecast(steps).summary_frame()]
    belongs to statsmodels, not to the repository.  It has one row for each
    of the [steps] periods that follow the end of the sample, labelled by
    the continuation of the daily date index of the training series
    ("indexed by the day following the series' last observed date,
    sequential with no gaps").  Only [steps >= 1] is in the model. *)
Definition get_forecast_summary_frame
    (sm : Statsmodels) (fit : ARIMAResults) (steps : Z) : list SummaryRow :=
  map (fun i =>
         let '(m, se, lo, hi) := arima_predict sm fit i in
         mkSummaryRow (last_date (endog (res_model fit)) + 1 + Z.of_nat i)
                      m se lo hi)
      (seq 0 (Z.to_nat steps)).

(** ** models/arima_model.py *)

Record ArimaModel : Type := mkArimaModel {
  order : Order;
  model : option ARIMA;
  model_fit : option ARIMAResults
}.

(** [ArimaModel.__init__] *)
Definition ArimaModel_init (o : Order) : ArimaModel := mkArimaModel o None None.

(** [train] mutates [self] and may raise; the state also records, in call
    order, the orders with which [ARIMA(...)] was invoked. *)
Record TrainState : Type := mkTrainState {
  self : ArimaModel;
  attempts : list Order
}.

Definition M (A : Type) : Type := TrainState -> result A * TrainState.

Definition ret {A} (a : A) : M A := fun st => (inr a, st).

Definition bind {A B} (m : M A) (k : A -> M B) : M B :=
  fun st =>
    match m st with
    | (inl e, st') => (inl e, st')
    | (inr a, st') => k a st'
    end.

Definition raise {A} (e : exn) : M A := fun st => (inl e, st).

Definition lift {A} (r : result A) : M A := fun st => (r, st).

(** [try: body except Exception as e: handler(e)] *)
Definition try_except {A} (body : M A) (handler : exn -> M A) : M A :=
  fun st =>
    match body st with
    | (inl e, st') => handler e st'
    | (inr a, st') => (inr a, st')
    end.

Definition get_order : M Order := fun st => (inr (order (self st)), st).

Definition set_model (a : ARIMA) : M unit :=
  fun st =>
    (inr tt,
     mkTrainState
       (mkArimaModel (order (self st)) (Some a) (model_fit (self st)))
       (attempts st)).

Definition set_model_fit (f : option ARIMAResults) : M unit :=
  fun st =>
    (inr tt,
     mkTrainState
       (mkArimaModel (order (self st)) (model (self st)) f)
       (attempts st)).

Definition record_attempt (o : Order) : M unit :=
  fun st => (inr tt, mkTrainState (self st) (attempts st ++ [o])%list).

Declare Scope train_scope.
Delimit Scope train_scope with train.
Notation "x <- e ;; k" := (bind e (fun x => k))
  (at level 100, e at next level, right associativity) : train_scope.
Notation "e ;;; k" := (bind e (fun _ => k))
  (at level 100, right associativity) : train_scope.

Section ArimaModel.

Variable sm : Statsmodels.

(** [ARIMA(series, order=o)] *)
Definition ARIMA_new (series : Series) (o : Order) : result ARIMA :=
  match arima_check sm series o with
  | Some e => inl e
  | None => inr (mkARIMA series o)
  end.

(** [model.fit()] *)
Definition ARIMA_fit (a : ARIMA) : result ARIMAResults :=
  match arima_fit sm a with
  | inl e => inl e
  | inr (params, ic) => inr (mkARIMAResults a params ic)
  end.

(** [self.model = ARIMA(series, order=o); self.model_fit = self.model.fit()] *)
Definition fit_with (series : Series) (o : Order) : M unit :=
  (record_attempt o ;;;
   a <- lift (ARIMA_new series o) ;;
   set_model a ;;;
   r <- lift (ARIMA_fit a) ;;
   set_model_fit (Some r))%train.

Definition fallback_order : Order := (1, 1, 0).

(** The outcome of one attempt, [ARIMA(series, order=o).fit()]. *)
Definition fit_outcome (series : Series) (o : Order) : result ARIMAResults :=
  (a <- ARIMA_new series o ;; ARIMA_fit a)%result.

(** [ArimaModel.train] *)
Definition train (series : Series) : M bool :=
  (series <- lift (ensure_freq series) ;;
   try_except
     (try_except
        (o <- get_order ;; fit_with series o)
        (fun _ => fit_with series fallback_order) ;;;
      ret true)
     (fun _ => set_model_fit None ;;; ret false))%train.

Definition run_train (m : ArimaModel) (series : Series)
  : result bool * TrainState :=
  train series (mkTrainState m []).

(** [ArimaModel.forecast] *)
Definition forecast (m : ArimaModel) (steps : Z) : result DataFrame :=
  match model_fit m with
  | None => inl (ValueError "Model not trained yet.")
  | Some fit =>
      let summary_frame := get_forecast_summary_frame sm fit steps in
      inr (map (fun r => mkFRow (sm_date r) (sm_mean r)
                                (sm_mean_ci_lower r) (sm_mean_ci_upper r))
               summary_frame)
  end.

End ArimaModel.

(** [history[-n:]] *)
Definition last_n {A} (n : nat) (l : list A) : list A :=
  skipn (List.length l - n) l.

(** The comparison [x > c] of a float that may be NaN. *)
Definition gt_nan (x : option Q) (c : Q) : bool :=
  match x with Some q => Qltb c q | None => false end.
Definition lt_nan (x : option Q) (c : Q) : bool :=
  match x with Some q => Qltb q c | None => false end.
Definition abs_nan (x : option Q) : option Q := option_map Qabs x.

Definition current_avg_of (history : Series) : option Q :=
  let current_avg :=
    if (30 <=? List.length (s_values history))%nat
    then mean (last_n 30 (s_values history))
    else mean (s_values history) in
  match current_avg with
  | Some c => if Qeq_bool c 0 then Some 1%Q else Some c
  | None => None
  end.

Definition future_avg_of (forecast : DataFrame) : option Q :=
  mean (map f_mean forecast).

Definition change_pct_of (history : Series) (forecast : DataFrame) : option Q :=
  match future_avg_of forecast, current_avg_of history with
  | Some f, Some c => Some (((f - c) / c) * 100)%Q
  | _, _ => None
  end.

Definition trend_of (change_pct : option Q) : string :=
  if gt_nan change_pct 5 then "increasing"
  else if lt_nan change_pct (-5) then "decreasing"
  else "stable".

Definition magnitude_of (change_pct : option Q) : string :=
  if gt_nan (abs_nan change_pct) 20 then "significantly"
  else if gt_nan (abs_nan change_pct) 50 then "drastically"
  else "slightly".

(** The first row holding the largest mean, scanning from [best]. *)
Fixpoint argmax_from (best : FRow) (l : list FRow) : FRow :=
  match l with
  | [] => best
  | r :: t => if Qltb (f_mean best) (f_mean r)
              then argmax_from r t else argmax_from best t
  end.

(** [forecast['mean'].idxmax()] together with [forecast['mean'].max()] *)
Definition idxmax (forecast : DataFrame) : result (Z * Q) :=
  match forecast with
  | [] => inl (ValueError "attempt to get argmax of an empty sequence")
  | r :: t => let p := argmax_from r t in inr (f_date p, f_mean p)
  end.

Definition int_nan (x : option Q) : result Z :=
  match x with
  | Some q => inr (py_int q)
  | None => inl (ValueError "cannot convert float NaN to integer")
  end.

(** [ArimaModel.generate_insight] *)
Definition generate_insight
    (history : Series) (forecast : DataFrame) (metric_name : string)
  : result string :=
  let future_avg := future_avg_of forecast in
  let change_pct := change_pct_of history forecast in
  let trend := trend_of change_pct in
  let magnitude := magnitude_of change_pct in
  (peak <- idxmax forecast ;;
   let '(peak_idx, peak_val) := peak in
   let peak_date_str := strftime_b_d peak_idx in
   let insight :=
     metric_name ++ " is projected to " ++ trend ++ " " ++ magnitude
       ++ " (" ++ fmt_plus_1f change_pct ++ "%) over the next "
       ++ dec (Z.of_nat (List.length forecast)) ++ " days. " in
   if String.eqb trend "increasing" then
     inr (insight ++ "Prepare for a peak of " ++ dec (py_int peak_val)
            ++ " units around " ++ peak_date_str ++ ". "
            ++ "Consider increasing buffer stock in regional warehouses.")
   else if String.eqb trend "decreasing" then
     inr (insight ++ "Expect lower activity levels, bottoming out around "
            ++ strftime_b_d peak_idx ++ ". "
            ++ "Opportunity to schedule vehicle maintenance or reduce labor shifts.")
   else
     avg <- int_nan future_avg ;;
     inr (insight ++ "Operations are expected to remain steady with an average of "
            ++ dec avg ++ " units. "
            ++ "Maintain current inventory levels."))%result.

(** ** Delivery records *)

(** A row of the deliveries frame ([record_id] is the column [id]). *)
Record DeliveryRecord : Type := mkDeliveryRecord {
  record_id : string;
  originId : string;
  destinationId : string;
  vehicleId : string;
  demand : Z;
  distance : Q;
  totalCost : Q;
  deliveryDate : Z;
  isAlpine : bool;
  hasOvertime : bool;
  vehicleType : string;
  originCategory : string;
  destinationCategory : string
}.

(** ** Sorting *)

Section Sort.

Context {A : Type}.
Variable leb : A -> A -> bool.

Fixpoint insert_sorted (x : A) (l : list A) : list A :=
  match l with
  | [] => [x]
  | y :: r => if leb x y then x :: y :: r else y :: insert_sorted x r
  end.

(** A stable sort ascending in [leb]. *)
Definition sort_by (l : list A) : list A :=
  fold_right insert_sorted [] l.

End Sort.

(** [df.sort_values('deliveryDate')]; the order pandas gives to records of
    equal date is not relied upon. *)
Definition sort_values_deliveryDate (df : list DeliveryRecord)
  : list DeliveryRecord :=
  sort_by (fun a b => deliveryDate a <=? deliveryDate b) df.

(** [Series.unique()]: the distinct values in order of first appearance. *)
Fixpoint unique (l : list string) : list string :=
  match l with
  | [] => []
  | x :: r => x :: filter (fun y => negb (String.eqb x y)) (unique r)
  end.

Fixpoint unique_days (l : list Z) : list Z :=
  match l with
  | [] => []
  | x :: r => x :: filter (fun y => negb (x =? y)) (unique_days r)
  end.

(** ** Random draws *)

(** The outcomes of the ambient generators, by draw number: the standard
    normal deviates behind [np.random.normal], the positions behind
    [np.random.choice] and [DataFrame.sample], and the values of
    [random.random()]. *)
Record Tape : Type := mkTape {
  normal_draw : nat -> Q;
  choice_draw : nat -> nat;
  uniform_draw : nat -> Q
}.

(** ** data/synthetic.py *)

Section SyntheticGenerator.

Variable tape : Tape.

(** [np.random.normal(loc, scale)], consuming draw [c]. *)
Definition np_random_normal (loc scale : Q) (c : nat) : Q * nat :=
  ((loc + scale * normal_draw tape c)%Q, S c).

(** [np.random.choice(xs)] and [frame.sample(1).iloc[0]], on a non-empty
    [xs]; [d] fills the impossible empty case. *)
Definition np_random_choice {A} (xs : list A) (d : A) (c : nat) : A * nat :=
  (nth (choice_draw tape c mod List.length xs)%nat xs d, S c).

(** [random.random()] *)
Definition random_random (c : nat) : Q * nat :=
  (uniform_draw tape c, S c).

(** The frame and the values computed from it before the loops. *)
Variable r0 : DeliveryRecord.
Variable rest : list DeliveryRecord.

Let df : list DeliveryRecord := r0 :: rest.

Definition synth_row (i j : nat) (current_synth_date : Z) (c : nat)
  : DeliveryRecord * nat :=
  let vehicle_ids := unique (map vehicleId df) in
  let origin_ids := unique (map originId df) in
  let dest_ids := unique (map destinationId df) in
  let '(vid, c) := np_random_choice vehicle_ids (vehicleId r0) c in
  let '(oid, c) := np_random_choice origin_ids (originId r0) c in
  let '(did, c) := np_random_choice dest_ids (destinationId r0) c in
  let '(template, c) :=
    np_random_choice
      (filter (fun r => String.eqb (vehicleId r) vid) df) r0 c in
  let '(noise, c) := np_random_normal 1 (1 # 10) c in
  let cost := (totalCost template * noise)%Q in
  let demand' := py_int (inject_Z (demand template) * noise) in
  let distance' := distance template in
  let '(u, c) := random_random c in
  (mkDeliveryRecord
     ("synth_" ++ dec (Z.of_nat i) ++ "_" ++ dec (Z.of_nat j))
     oid did vid demand' distance' cost current_synth_date
     (isAlpine template)
     (Qltb u (1 # 10))
     (vehicleType template) (originCategory template)
     (destinationCategory template),
   c).

(** [for _ in range(n_deliveries)] of day [i] *)
Fixpoint synth_rows (i : nat) (js : list nat) (current_synth_date : Z)
    (c : nat) : list DeliveryRecord * nat :=
  match js with
  | [] => ([], c)
  | j :: js' =>
      let '(row, c) := synth_row i j current_synth_date c in
      let '(rows, c) := synth_rows i js' current_synth_date c in
      (row :: rows, c)
  end.

(** [for i in range(days_needed)]: the rows appended on each day. *)
Fixpoint synth_days (daily_vol : Q) (range : list nat)
    (current_synth_date : Z) (c : nat) : list (list DeliveryRecord) :=
  match range with
  | [] => []
  | i :: range' =>
      let current_synth_date := current_synth_date - 1 * day_seconds in
      let '(x, c) := np_random_normal daily_vol (daily_vol * (2 # 10)) c in
      let n_deliveries := Z.max 1 (py_int x) in
      let '(rows, c) :=
        synth_rows i (seq 0 (Z.to_nat n_deliveries)) current_synth_date c in
      rows :: synth_days daily_vol range' current_synth_date c
  end.

End SyntheticGenerator.

Definition earliest_date_of (r0 : DeliveryRecord) (rest : list DeliveryRecord) : Z :=
  list_min (deliveryDate r0) (map deliveryDate rest).

Definition latest_date_of (r0 : DeliveryRecord) (rest : list DeliveryRecord) : Z :=
  list_max (deliveryDate r0) (map deliveryDate rest).

(** [(latest_date - earliest_date).days] *)
Definition current_span_of (r0 : DeliveryRecord) (rest : list DeliveryRecord) : Z :=
  (latest_date_of r0 rest - earliest_date_of r0 rest) / day_seconds.

(** [df.groupby(df['deliveryDate'].dt.date).size().mean()] *)
Definition daily_vol_of (df : list DeliveryRecord) : option Q :=
  let days := map (fun r => date_of (deliveryDate r)) df in
  mean (map (fun d => inject_Z (Z.of_nat (List.length (filter (Z.eqb d) days))))
            (unique_days days)).

(** The batches of synthetic rows, one per generated day; none when the
    frame is empty or already long enough.  [avg_cost] and [std_cost] of the
    source are computed and never used.  The volume of a non-empty frame is
    a number; were it NaN, the first [int(...)] of the loop would raise. *)
Definition synthetic_batches (tape : Tape) (original_df : list DeliveryRecord)
    (target_days : Z) : result (list (list DeliveryRecord)) :=
  match original_df with
  | [] => inr []
  | r0 :: rest =>
      let days_needed := target_days - current_span_of r0 rest in
      if days_needed <=? 0 then inr []
      else
        match daily_vol_of original_df with
        | None => inl (ValueError "cannot convert float NaN to integer")
        | Some daily_vol =>
            inr (synth_days tape r0 rest daily_vol
                            (seq 0 (Z.to_nat days_needed))
                            (earliest_date_of r0 rest) 0%nat)
        end
  end.

(** [SyntheticGenerator(original_df).generate_historical_data(target_days)] *)
Definition generate_historical_data (tape : Tape)
    (original_df : list DeliveryRecord) (target_days : Z)
  : result (list DeliveryRecord) :=
  match original_df with
  | [] => inr []
  | r0 :: rest =>
      let df := original_df in
      let days_needed := target_days - current_span_of r0 rest in
      if days_needed <=? 0 then inr df
      else
        (batches <- synthetic_batches tape original_df target_days ;;
         let new_rows := List.concat batches in
         let combined_df := (new_rows ++ df)%list in
         inr (sort_values_deliveryDate combined_df))%result
  end.


(** The span in days of a record collection, as the augmentor measures it
    (0 for the empty collection, which has no dates). *)
Definition span (records : list DeliveryRecord) : Z :=
  match records with
  | [] => 0
  | r0 :: rest => current_span_of r0 rest
  end.

(** ** data/preprocessor.py *)

Inductive Column : Type := col_demand | col_totalCost.

Definition column_value (c : Column) (r : DeliveryRecord) : Q :=
  match c with
  | col_demand => inject_Z (demand r)
  | col_totalCost => totalCost r
  end.

(** [Preprocessor.prepare_arima_data]: daily sums over every day of the
    observed range.  An empty frame has no [deliveryDate] column. *)
Definition prepare_arima_data (df : list DeliveryRecord) (column : Column)
  : result Series :=
  match df with
  | [] => inl (KeyError "deliveryDate")
  | _ =>
      let days := map (fun r => date_of (deliveryDate r)) df in
      let daily :=
        map (fun d =>
               (d, Qsum (map (column_value column)
                             (filter (fun r => date_of (deliveryDate r) =? d) df))))
            (sort_by Z.leb (unique_days days)) in
      asfreq_D_fillna0 (mkSeries daily false)
  end.

(** ** models/rf_model.py *)

(** scikit-learn's fitted forest, as [predict_proba([features])[0]]: the
    row of class probabilities of one feature vector, or the exception it
    raises (for instance when the vector has the wrong number of
    features). *)
Definition Classifier : Type := list Q -> result (list Q).

(** [SupplierReliabilityModel]; [classifier] is its attribute [model]. *)
Record SupplierReliabilityModel : Type := mkSupplierReliabilityModel {
  classifier : Classifier;
  feature_names : list string
}.

(** The dictionary [row_data] handed to [generate_risk_narrative]. *)
Record RowData : Type := mkRowData {
  is_alpine_int : Z;
  rd_distance : Q;
  month : Z;
  day_of_week : Z
}.

Definition risk_level_of (prob_on_time : Q) : string :=
  if Qltb prob_on_time (6 # 10) then "High"
  else if Qltb prob_on_time (8 # 10) then "Medium"
  else "Low".

(** [SupplierReliabilityModel.generate_risk_narrative] *)
Definition generate_risk_narrative (row_data : RowData) (prob_on_time : Q)
  : string :=
  let risk_level := risk_level_of prob_on_time in
  let narrative :=
    "Reliability Score: " ++ dec (py_int (prob_on_time * 100)) ++ "%. Risk Level: "
      ++ risk_level ++ ". " in
  if String.eqb risk_level "High" then
    let narrative := narrative ++ "Major delays likely. " in
    let narrative :=
      if is_alpine_int row_data =? 1
      then narrative ++ "Alpine route complexity is a primary risk factor. "
      else narrative in
    let narrative :=
      if Qltb 300 (rd_distance row_data)
      then narrative ++ "Long-haul distance increases vulnerability to traffic. "
      else narrative in
    let narrative :=
      if existsb (Z.eqb (month row_data)) [12; 1; 2]
      then narrative ++ "Winter conditions may exacerbate delays. "
      else narrative in
    narrative ++ "Recommendation: buffer lead time by 24h."
  else if String.eqb risk_level "Medium" then
    let narrative := narrative ++ "Monitor closely. " in
    let narrative :=
      if 4 <=? day_of_week row_data
      then narrative ++ "Weekend traffic patterns may impact arrival. "
      else narrative in
    narrative ++ "Ensure vehicle maintenance is up to date."
  else
    narrative ++ "Route is performing optimally. No immediate actions required.".

(** ** data/db_fetcher.py *)

(** [DBFetcher.__init__], given the value of [DATABASE_URL]. *)
Definition DBFetcher_init (db_url : option string) : result string :=
  match db_url with
  | None | Some "" =>
      inl (ValueError "DATABASE_URL environment variable is not set")
  | Some u => inr u
  end.

(** ** main.py: the registry, startup and the endpoints *)

(** What the module-level dictionary [models] holds. *)
Inductive Value : Type :=
| PyNone
| VArimaModel (m : ArimaModel)
| VSeries (s : Series)
| VReliability (m : SupplierReliabilityModel).

(** A Python dictionary with string keys, in insertion order. *)
Definition Dict (V : Type) : Type := list (string * V).

Fixpoint dict_set {V} (k : string) (v : V) (d : Dict V) : Dict V :=
  match d with
  | [] => [(k, v)]
  | (k', v') :: r =>
      if String.eqb k' k then (k, v) :: r else (k', v') :: dict_set k v r
  end.

Fixpoint dict_get {V} (k : string) (d : Dict V) : option V :=
  match d with
  | [] => None
  | (k', v') :: r => if String.eqb k' k then Some v' else dict_get k r
  end.

Definition dict_values {V} (d : Dict V) : list V := map snd d.

Record DataContext : Type := mkDataContext {
  latest_date : option Z;
  rf_accuracy : Q;
  total_records : Z
}.

Record AppState : Type := mkAppState {
  models : Dict Value;
  data_context : DataContext
}.

Definition initial_state : AppState :=
  mkAppState
    [("demand", PyNone); ("spend", PyNone); ("reliability", PyNone)]
    (mkDataContext None 0 0).

(** [bool(v)]: [None] is false, an object without [__bool__] or [__len__]
    is true, and pandas refuses to give a Series a truth value. *)
Definition truth (v : Value) : result bool :=
  match v with
  | PyNone => inr false
  | VArimaModel _ => inr true
  | VReliability _ => inr true
  | VSeries _ =>
      inl (ValueError "The truth value of a Series is ambiguous. Use a.empty, a.bool(), a.item(), a.any() or a.all().")
  end.

(** [all(values)]: stops at the first false value. *)
Fixpoint py_all (vs : list Value) : result bool :=
  match vs with
  | [] => inr true
  | v :: r => (b <- truth v ;; if b then py_all r else inr false)%result
  end.

Definition is_not_None (v : Value) : bool :=
  match v with PyNone => false | _ => true end.

Record HealthResponse : Type := mkHealthResponse {
  status : string;
  models_loaded : bool;
  details : Dict bool
}.

(** [health_check] *)
Definition health_check (st : AppState) : result HealthResponse :=
  (loaded <- py_all (dict_values (models st)) ;;
   inr (mkHealthResponse "ok" loaded
          (map (fun kv => (fst kv, is_not_None (snd kv))) (models st))))%result.

(** Everything outside the process that startup depends on.  [sklearn_fit]
    stands for [prepare_rf_data] followed by [SupplierReliabilityModel.train]:
    the fitted forest and its accuracy, or the exception raised on the
    way; the feature matrix itself is not modelled. *)
Record World : Type := mkWorld {
  statsmodels : Statsmodels;
  database_url : option string;
  query_deliveries : result (list DeliveryRecord);
  random_tape : Tape;
  sklearn_fit : list DeliveryRecord -> result (Classifier * Q)
}.

(** Steps 3 and 4 of [lifespan]: train one forecaster and register it with
    its history. *)
Definition train_forecaster (w : World) (full_df : list DeliveryRecord)
    (column : Column) (key history_key : string) (st : AppState) : AppState :=
  match prepare_arima_data full_df column with
  | inl _ => st
  | inr series =>
      match run_train (statsmodels w) (ArimaModel_init (5, 1, 0)) series with
      | (inr true, ts) =>
          mkAppState
            (dict_set history_key (VSeries series)
               (dict_set key (VArimaModel (self ts)) (models st)))
            (data_context st)
      | (_, _) => st
      end
  end.

Definition rf_feature_names : list string :=
  ["vehicle_encoded"; "origin_encoded"; "distance"; "demand";
   "is_alpine_int"; "day_of_week"; "month"].

(** Step 5 of [lifespan]. *)
Definition train_reliability (w : World) (full_df : list DeliveryRecord)
    (st : AppState) : AppState :=
  match sklearn_fit w full_df with
  | inl _ => st
  | inr (clf, accuracy) =>
      mkAppState
        (dict_set "reliability"
           (VReliability (mkSupplierReliabilityModel clf rf_feature_names))
           (models st))
        (mkDataContext (latest_date (data_context st)) accuracy
                       (total_records (data_context st)))
  end.

(** [lifespan], up to its [yield]: the state the endpoints then see. *)
Definition lifespan (w : World) : AppState :=
  let st := initial_state in
  match (_ <- DBFetcher_init (database_url w) ;;
         df <- query_deliveries w ;;
         generate_historical_data (random_tape w) df 365)%result with
  | inl _ => st
  | inr [] => st
  | inr (r0 :: rest) =>
      let full_df := r0 :: rest in
      let st :=
        mkAppState (models st)
          (mkDataContext (Some (latest_date_of r0 rest)) 0
                         (Z.of_nat (List.length full_df))) in
      let st := train_forecaster w full_df col_demand "demand" "demand_history" st in
      let st := train_forecaster w full_df col_totalCost "spend" "spend_history" st in
      train_reliability w full_df st
  end.

Record Scenario : Type := mkScenario {
  name : string;
  sc_is_alpine_int : Z;
  sc_distance : Z;
  vehicle_encoded : Z
}.

Definition scenarios : list Scenario :=
  [ mkScenario "Vienna Hub -> Salzburg (Mountain)" 1 320 0;
    mkScenario "Graz Inner City (Van)" 0 15 1;
    mkScenario "Innsbruck -> Munich (Long Haul)" 1 180 2;
    mkScenario "Vienna Local Distribution" 0 45 0;
    mkScenario "Klagenfurt -> Villach" 0 40 1 ].

Record Entry : Type := mkEntry {
  route : string;
  score : Q;
  insight : string
}.

(** [datetime.datetime.now()], as far as it is used. *)
Record Now : Type := mkNow { weekday : Z; now_month : Z }.

Definition features_of (s : Scenario) (dt : Now) : list Q :=
  [ inject_Z (vehicle_encoded s); 0%Q; inject_Z (sc_distance s); 150%Q;
    inject_Z (sc_is_alpine_int s); inject_Z (weekday dt);
    inject_Z (now_month dt) ].

(** [model.model.predict_proba([features])[0][1]] *)
Definition predict_on_time (m : SupplierReliabilityModel) (features : list Q)
  : result Q :=
  (row <- classifier m features ;;
   match nth_error row 1 with
   | Some p => inr p
   | None => inl (IndexError "index 1 is out of bounds for axis 0 with size 1")
   end)%result.

Definition default_probability : Q := 85 # 100.

(** The [try]/[except] of [dashboard_reliability]. *)
Definition prob_or_default (m : SupplierReliabilityModel) (features : list Q) : Q :=
  match predict_on_time m features with
  | inr p => p
  | inl _ => default_probability
  end.

Definition dashboard_entry (m : SupplierReliabilityModel) (dt : Now)
    (s : Scenario) : Entry :=
  let prob := prob_or_default m (features_of s dt) in
  let narrative :=
    generate_risk_narrative
      (mkRowData (sc_is_alpine_int s) (inject_Z (sc_distance s))
                 (now_month dt) (weekday dt))
      prob in
  mkEntry (name s) (py_round1 (prob * 100)) narrative.

(** [dashboard_reliability] *)
Definition dashboard_reliability (st : AppState) (dt : Now)
  : result (list Entry) :=
  match dict_get "reliability" (models st) with
  | Some (VReliability m) =>
      inr (sort_by (fun a b => Qle_bool (score a) (score b))
                   (map (dashboard_entry m dt) scenarios))
  | _ => inl (HTTPException 503 "Model not ready")
  end.

(** ** The trough of a forecast, in the specification's words *)

Fixpoint argmin_from (best : FRow) (l : list FRow) : FRow :=
  match l with
  | [] => best
  | r :: t => if Qltb (f_mean r) (f_mean best)
              then argmin_from r t else argmin_from best t
  end.

(** The date at which the forecast mean attains its minimum. *)
Definition trough_date (forecast : DataFrame) : option Z :=
  match forecast with
  | [] => None
  | r :: t => Some (f_date (argmin_from r t))
  end.

(** ** Sample inputs *)

(** [n] days from day 0, each holding [v]. *)
Definition constant_series (v : Q) (n : nat) : Series :=
  mkSeries (map (fun i => (Z.of_nat i, v)) (seq 0 n)) true.

(** Thirty days of 100 followed by a forecast of one day at 160. *)
Definition forecast_up_60 : DataFrame := [mkFRow 30 160 150 170].

(** A forecast falling from 90 on day 30 (Jan 31) to 50 on day 31 (Feb 01). *)
Definition forecast_falling : DataFrame :=
  [mkFRow 30 90 80 100; mkFRow 31 50 40 60].

(** A statsmodels that accepts every series, fits every model and
    forecasts the constant 5. *)
Definition statsmodels_ok : Statsmodels :=
  mkStatsmodels (fun _ _ => None)
                (fun _ => inr ([1%Q], 10%Q))
                (fun _ _ => (5%Q, 1%Q, 3%Q, 7%Q)).

(** A statsmodels whose fit converges for no order. *)
Definition statsmodels_diverging : Statsmodels :=
  mkStatsmodels (fun _ _ => None)
                (fun _ => inl (mkExn "LinAlgError" "Schur decomposition solver error."))
                (fun _ _ => (0%Q, 0%Q, 0%Q, 0%Q)).

(** A statsmodels whose fit converges for the fallback order only. *)
Definition statsmodels_fallback_only : Statsmodels :=
  mkStatsmodels (fun _ _ => None)
                (fun a => match arima_order a with
                          | (1, 1, 0) => inr ([1%Q], 10%Q)
                          | _ => inl (mkExn "LinAlgError" "LU decomposition error.")
                          end)
                (fun _ _ => (5%Q, 1%Q, 3%Q, 7%Q)).

(** A delivery by vehicle [vid] at timestamp [ts]. *)
Definition sample_record (rid vid : string) (ts : Z) : DeliveryRecord :=
  mkDeliveryRecord rid "P1" "P2" vid 10 50 100 ts false false
                   "Van" "Warehouse" "Store".

(** Scenario A in small: two deliveries 400 days apart. *)
Definition records_400_days : list DeliveryRecord :=
  [sample_record "d1" "V1" 0; sample_record "d2" "V2" (400 * day_seconds)].

(** Two deliveries ten days and one hour apart, the later one first. *)
Definition records_10_days : list DeliveryRecord :=
  [sample_record "d2" "V2" (10 * day_seconds + 3600); sample_record "d1" "V1" 0].

Definition sample_tape : Tape :=
  mkTape (fun n => if Nat.even n then (1 # 2) else (-3 # 1))%Q
         (fun n => n)
         (fun n => if Nat.even n then (1 # 20) else (1 # 2))%Q.

(** A fitted forest that expects [n] features and then gives the on-time
    class the probability [p]. *)
Definition classifier_expecting (n : nat) (p : Q) : Classifier :=
  fun features =>
    if (List.length features =? n)%nat then inr [(1 - p)%Q; p]
    else inl (ValueError "X has a different number of features than RandomForestClassifier is expecting.").

(** A startup in which both forecasters and the forest train. *)
Definition world_all_trained : World :=
  mkWorld statsmodels_ok (Some "postgresql://db/deliveries")
          (inr records_400_days) sample_tape
          (fun _ => inr (classifier_expecting 7 (85 # 100), 9 # 10)%Q).

(** The same startup with a forest that rejects seven features. *)
Definition world_shape_mismatch : World :=
  mkWorld statsmodels_ok (Some "postgresql://db/deliveries")
          (inr records_400_days) sample_tape
          (fun _ => inr (classifier_expecting 6 (30 # 100), 9 # 10)%Q).

(** A startup in which no forecaster converges. *)
Definition world_no_forecaster : World :=
  mkWorld statsmodels_diverging (Some "postgresql://db/deliveries")
          (inr records_400_days) sample_tape
          (fun _ => inr (classifier_expecting 7 (85 # 100), 9 # 10)%Q).

(** A Wednesday in January. *)
Definition sample_now : Now := mkNow 2 1.

(** Whether the registry holds a model (not [None]) under key [k]. *)
Definition is_registered (k : string) (st : AppState) : bool :=
  match dict_get k (models st) with
  | Some v => is_not_None v
  | None => false
  end.

(** ** main.py: the other read-only endpoints *)

Definition AttributeError (msg : string) : exn := mkExn "AttributeError" msg.

(** [models[k].model_fit.aic if models.get(k) and models[k].model_fit else 0] *)
Definition aic_or_zero (k : string) (st : AppState) : result Q :=
  match dict_get k (models st) with
  | None => inr 0%Q
  | Some v =>
      (b <- truth v ;;
       if b then
         match v with
         | VArimaModel m =>
             match model_fit m with
             | Some fit => inr (aic fit)
             | None => inr 0%Q
             end
         | _ => inl (AttributeError "object has no attribute 'model_fit'")
         end
       else inr 0%Q)%result
  end.

Record Performance : Type := mkPerformance {
  arima_demand_aic : Q;
  arima_spend_aic : Q;
  perf_rf_accuracy : Q;
  data_points : Z
}.

(** [model_performance] *)
Definition model_performance (st : AppState) : result Performance :=
  (d <- aic_or_zero "demand" st ;;
   s <- aic_or_zero "spend" st ;;
   inr (mkPerformance d s (rf_accuracy (data_context st))
                      (total_records (data_context st))))%result.

Record ReliabilityInfo : Type := mkReliabilityInfo {
  accuracy : Q;
  records_trained : Z
}.

(** [hasattr(model, 'feature_names') and model.feature_names] *)
Definition has_feature_names (v : Value) : bool :=
  match v with
  | VReliability m => match feature_names m with [] => false | _ => true end
  | _ => false
  end.

(** [predict_reliability]; the request body [items] is received and not
    read.  The [HTTPException] raised inside the [try] is an [Exception]
    and is caught by its [except Exception: pass]. *)
Definition predict_reliability {Item : Type} (st : AppState)
    (items : list Item) : result ReliabilityInfo :=
  match dict_get "reliability" (models st) with
  | None => inl (HTTPException 503 "Model not ready")
  | Some v =>
      (b <- truth v ;;
       if negb b then inl (HTTPException 503 "Model not ready")
       else
         _ <- match (if has_feature_names v then inr tt
                     else inl (HTTPException 503 "Model features not ready"))
              with
              | inl _ => inr tt
              | inr u => inr u
              end ;;
         inr (mkReliabilityInfo (rf_accuracy (data_context st))
                                (total_records (data_context st))))%result
  end.

(** The sum of one day's deliveries in a column. *)
Definition day_total (df : list DeliveryRecord) (column : Column) (d : Z) : Q :=
  Qsum (map (column_value column)
            (filter (fun r => date_of (deliveryDate r) =? d) df)).

(** The real record a synthetic row was copied from. *)
Definition copied_from (s t : DeliveryRecord) : Prop :=
  vehicleId s = vehicleId t /\
  vehicleType s = vehicleType t /\
  originCategory s = originCategory t /\
  destinationCategory s = destinationCategory t /\
  distance s = distance t /\
  isAlpine s = isAlpine t.


(** The synthetic batches and the first synthetic row of the ten-day
    sample with a target of twelve days. *)
Definition sample_batches : list (list DeliveryRecord) :=
  match synthetic_batches sample_tape records_10_days 12 with
  | inr b => b
  | inl _ => []
  end.

Definition sample_synthetic_row : DeliveryRecord :=
  nth 0 (List.concat sample_batches) (sample_record "" "" 0).

(** A startup without [DATABASE_URL]. *)
Definition world_no_database : World :=
  mkWorld statsmodels_ok None (inr records_400_days) sample_tape
          (fun _ => inr (classifier_expecting 7 (85 # 100), 9 # 10)%Q).

(** The frame that startup trains on: the fetched records, augmented to a
    year. *)
Definition startup_frame (w : World) : result (list DeliveryRecord) :=
  (_ <- DBFetcher_init (database_url w) ;;
   df <- query_deliveries w ;;
   generate_historical_data (random_tape w) df 365)%result.

(** Ascending by score. *)
Definition score_le (a b : Entry) : Prop := (score a <= score b)%Q.

(** The demand forecaster that the fully trained startup registers. *)
Definition registered_demand_model : ArimaModel :=
  match dict_get "demand" (models (lifespan world_all_trained)) with
  | Some (VArimaModel m) => m
  | _ => ArimaModel_init (5, 1, 0)
  end.

(** ** data/preprocessor.py: the feature matrix *)

(** A row of [X], in the order of its columns. *)
Record FeatureRow : Type := mkFeatureRow {
  x_vehicle_encoded : Z;
  x_origin_encoded : Z;
  x_distance : Q;
  x_demand : Z;
  x_is_alpine_int : Z;
  x_day_of_week : Z;
  x_month : Z
}.

(** The position of [x] in [l], -1 when absent. *)
Fixpoint index_of (x : string) (l : list string) : Z :=
  match l with
  | [] => -1
  | y :: r =>
      if String.eqb x y then 0
      else let i := index_of x r in if i <? 0 then -1 else i + 1
  end.

(** The categories of [column.astype('category')]: the distinct values,
    sorted. *)
Definition categories (values : list string) : list string :=
  sort_by String.leb (unique values).

(** [column.astype('category').cat.codes], for one value of the column *)
Definition cat_code (values : list string) (v : string) : Z :=
  index_of v (categories values).

(** [ts.dt.dayofweek]: Monday is 0; day 0 of the epoch was a Thursday. *)
Definition dayofweek (ts : Z) : Z := (date_of ts + 3) mod 7.

(** [ts.dt.month] *)
Definition month_of (ts : Z) : Z := fst (month_day (date_of ts)).

Definition feature_row (df : list DeliveryRecord) (r : DeliveryRecord)
  : FeatureRow :=
  mkFeatureRow
    (cat_code (map vehicleId df) (vehicleId r))
    (cat_code (map originId df) (originId r))
    (distance r) (demand r)
    (if isAlpine r then 1 else 0)
    (dayofweek (deliveryDate r))
    (month_of (deliveryDate r)).

(** [Preprocessor.prepare_rf_data]: the features, the labels and the
    identifiers.  An empty frame has no [hasOvertime] column. *)
Definition prepare_rf_data (df : list DeliveryRecord)
  : result (list FeatureRow * list Z * list (string * string * string)) :=
  match df with
  | [] => inl (KeyError "hasOvertime")
  | _ =>
      let target := map (fun r => if hasOvertime r then 0 else 1) df in
      let X := map (feature_row df) df in
      inr (X, target,
           map (fun r => (record_id r, vehicleId r, originId r)) df)
  end.

(** ** main.py: the forecast endpoints *)

Definition TypeError (msg : string) : exn := mkExn "TypeError" msg.

(** What a row label or a keyword argument can be: a number or a pandas
    [Timestamp] (a calendar day at midnight). *)
Inductive PyScalar : Type :=
| PyNumber (n : Z)
| PyTimestamp (day : Z).

(** [forecast.iterrows()]: pairs of the row's index label and the row.
    The frame of [ArimaModel.forecast] is indexed by the forecast dates, so
    each label is a [Timestamp]. *)
Definition iterrows (df : DataFrame) : list (PyScalar * FRow) :=
  map (fun r => (PyTimestamp (f_date r), r)) df.

(** [pd.Timedelta(days=i)], in seconds: the keyword takes a number and
    refuses anything else. *)
Definition Timedelta_days (i : PyScalar) : result Z :=
  match i with
  | PyNumber n => inr (n * day_seconds)
  | PyTimestamp _ =>
      inl (TypeError "Invalid type <class 'pandas._libs.tslibs.timestamps.Timestamp'>. Must be int or float.")
  end.

(** [max(0, x)] *)
Definition max_0 (x : Q) : Q := if Qltb 0 x then x else 0%Q.

(** One element of the list [output]; [fp_date] is the timestamp whose
    [isoformat()] is sent. *)
Record ForecastPoint : Type := mkForecastPoint {
  fp_date : Z;
  fp_value : Q;
  fp_lower : Q;
  fp_upper : Q
}.

Record ForecastResponse : Type := mkForecastResponse {
  resp_forecast : list ForecastPoint;
  resp_insight : string;
  resp_metric : string
}.

(** [for i, row in forecast.iterrows(): date = start_date + pd.Timedelta(days=i); output.append(...)] *)
Fixpoint format_rows (start_date : Z) (rows : list (PyScalar * FRow))
  : result (list ForecastPoint) :=
  match rows with
  | [] => inr []
  | (i, row) :: rest =>
      (delta <- Timedelta_days i ;;
       let date := start_date + delta in
       output <- format_rows start_date rest ;;
       inr (mkForecastPoint date (max_0 (f_mean row)) (max_0 (f_lower row))
                            (f_upper row) :: output))%result
  end.

(** The body shared by [forecast_demand] and [forecast_spend]: the guard,
    then the [try] whose every exception becomes an HTTP 500 carrying the
    exception's text. *)
Definition forecast_endpoint (key history_key metric_name metric : string)
    (sm : Statsmodels) (st : AppState) (days : Z) : result ForecastResponse :=
  let not_ready := inl (HTTPException 503 "Model not ready") in
  match dict_get key (models st) with
  | None => not_ready
  | Some v =>
      (b <- truth v ;;
       if negb b then not_ready
       else
         match v with
         | VArimaModel m =>
             match model_fit m with
             | None => not_ready
             | Some _ =>
                 match
                   (forecast <- forecast sm m days ;;
                    history <- match dict_get history_key (models st) with
                               | Some (VSeries h) => inr h
                               | _ => inl (KeyError history_key)
                               end ;;
                    insight <- generate_insight history forecast metric_name ;;
                    start_date <- match latest_date (data_context st) with
                                  | Some t => inr (t + 1 * day_seconds)
                                  | None => inl (TypeError "unsupported operand type(s) for +: 'NoneType' and 'Timedelta'")
                                  end ;;
                    output <- format_rows start_date (iterrows forecast) ;;
                    inr (mkForecastResponse output insight metric))
                 with
                 | inl e => inl (HTTPException 500 (exn_msg e))
                 | inr response => inr response
                 end
             end
         | _ => inl (AttributeError "object has no attribute 'model_fit'")
         end)%result
  end.

(** [forecast_demand] *)
Definition forecast_demand : Statsmodels -> AppState -> Z -> result ForecastResponse :=
  forecast_endpoint "demand" "demand_history" "Demand" "Demand (Cases)".

(** [forecast_spend] *)
Definition forecast_spend : Statsmodels -> AppState -> Z -> result ForecastResponse :=
  forecast_endpoint "spend" "spend_history" "Procurement Spend" "Spend (EUR)".

(** ** Further sample inputs and bounds *)

(** A series without frequency in which day 0 occurs twice. *)
Definition series_duplicate_day : Series :=
  mkSeries [(0, 1%Q); (0, 2%Q); (1, 3%Q)] false.

(** The total of the demand column. *)
Definition total_demand (df : list DeliveryRecord) : Z :=
  fold_right Z.add 0 (map demand df).

(** The double nearest to 0.6, the value of the literal [0.6] in the
    source. *)
Definition double_0_6 : Q := 5404319552844595 # 9007199254740992.

(** * Properties *)

(** ** The forecaster *)

Section TrainProperties.

Variable sm : Statsmodels.

Lemma run_train_unfold (m : ArimaModel) (series : Series) :
  run_train sm m series =
  match ensure_freq series with
  | inl e => (inl e, mkTrainState m [])
  | inr s' =>
      match fit_outcome sm s' (order m) with
      | inr r =>
          (inr true,
           mkTrainState
             (mkArimaModel (order m) (Some (res_model r)) (Some r))
             [order m])
      | inl _ =>
          match fit_outcome sm s' fallback_order with
          | inr r =>
              (inr true,
               mkTrainState
                 (mkArimaModel (order m) (Some (res_model r)) (Some r))
                 [order m; fallback_order])
          | inl _ =>
              (inr false,
               mkTrainState
                 (mkArimaModel (order m)
                    (match ARIMA_new sm s' fallback_order with
                     | inr a => Some a
                     | inl _ =>
                         match ARIMA_new sm s' (order m) with
                         | inr a => Some a
                         | inl _ => model m
                         end
                     end)
                    None)
                 [order m; fallback_order])
          end
      end
  end.
Proof.
  cbv beta iota delta
    [run_train train bind lift try_except fit_with fit_outcome ARIMA_new
     ARIMA_fit rbind ret get_order set_model set_model_fit record_attempt].
  destruct (ensure_freq series) as [e | s']; [reflexivity |].
  cbn [self attempts order model model_fit app].
  destruct (arima_check sm s' (order m)) as [e1 |];
    destruct (arima_check sm s' fallback_order) as [e2 |];
    cbn [self attempts order model model_fit app];
    try destruct (arima_fit sm (mkARIMA s' (order m))) as [e3 | [p ic]];
    try destruct (arima_fit sm (mkARIMA s' fallback_order)) as [e4 | [p' ic']];
    reflexivity.
Qed.


Lemma fit_outcome_endog (s' : Series) (o : Order) (r : ARIMAResults) :
  fit_outcome sm s' o = inr r -> endog (res_model r) = s'.
Proof.
  unfold fit_outcome, ARIMA_new, ARIMA_fit, rbind.
  destruct (arima_check sm s' o); [discriminate |].
  destruct (arima_fit sm (mkARIMA s' o)) as [e | [p ic]]; [discriminate |].
  intros H; injection H as <-; reflexivity.
Qed.

(** A successful [train] leaves in [model_fit] a fit of the series it was
    given (made daily). *)
Lemma train_success_fit (m : ArimaModel) (series s' : Series) (st : TrainState) :
  ensure_freq series = inr s' ->
  run_train sm m series = (inr true, st) ->
  exists fit, model_fit (self st) = Some fit /\ endog (res_model fit) = s'.
Proof.
  intros Hs Ht. rewrite run_train_unfold, Hs in Ht.
  destruct (fit_outcome sm s' (order m)) as [e1 | r1] eqn:E1.
  - destruct (fit_outcome sm s' fallback_order) as [e2 | r2] eqn:E2.
    + discriminate.
    + injection Ht as <-. exists r2. split; [reflexivity |].
      eapply fit_outcome_endog; eassumption.
  - injection Ht as <-. exists r1. split; [reflexivity |].
    eapply fit_outcome_endog; eassumption.
Qed.

(** The two outcomes of [train]: when making the series daily raises,
    that exception leaves [train] before any fit is attempted; otherwise
    [train] tries the primary order, then the fallback order (1,1,0) once,
    and returns a boolean. *)
Lemma train_outcomes (m : ArimaModel) (series : Series) :
  match ensure_freq series with
  | inl e => run_train sm m series = (inl e, mkTrainState m [])
  | inr s' =>
      exists (b : bool) (st : TrainState),
        run_train sm m series = (inr b, st) /\
        match fit_outcome sm s' (order m) with
        | inr _ => b = true /\ attempts st = [order m]
        | inl _ =>
            attempts st = [order m; fallback_order] /\
            match fit_outcome sm s' fallback_order with
            | inr _ => b = true
            | inl _ => b = false /\ model_fit (self st) = None
            end
        end
  end.
Proof.
  rewrite run_train_unfold.
  destruct (ensure_freq series) as [e | s']; [reflexivity |].
  destruct (fit_outcome sm s' (order m)) as [e1 | r1].
  - destruct (fit_outcome sm s' fallback_order) as [e2 | r2];
      eexists; eexists; (split; [reflexivity |]); cbn; auto.
  - eexists; eexists; (split; [reflexivity |]); cbn; auto.
Qed.

Lemma forecast_dates (fit : ARIMAResults) (m : ArimaModel) (steps : Z) :
  model_fit m = Some fit ->
  exists df,
    forecast sm m steps = inr df /\
    List.length df = Z.to_nat steps /\
    forall i, (i < Z.to_nat steps)%nat ->
      nth_error (map f_date df) i
      = Some (last_date (endog (res_model fit)) + 1 + Z.of_nat i).
Proof.
  intros Hfit. unfold forecast. rewrite Hfit.
  eexists. split; [reflexivity |].
  unfold get_forecast_summary_frame.
  split.
  - now rewrite !length_map, length_seq.
  - intros i Hi. rewrite !map_map.
    erewrite map_ext with (g := fun k => last_date (endog (res_model fit)) + 1 + Z.of_nat k).
    + rewrite nth_error_map, nth_error_seq.
      apply Nat.ltb_lt in Hi. rewrite Hi. reflexivity.
    + intros k. destruct (arima_predict sm fit k) as [[[a b] c] d]. reflexivity.
Qed.

(** C6, as the code has it: for [steps >= 1], [forecast] fails exactly when
    [model_fit] is unset, and the failure is a [ValueError] with the message
    "Model not trained yet."; with a fit in place it returns a frame. *)
Theorem forecast_fails_iff_untrained (m : ArimaModel) (steps : Z) :
  1 <= steps ->
  (forecast sm m steps = inl (ValueError "Model not trained yet.")
   <-> model_fit m = None) /\
  (is_raise (forecast sm m steps) = true <-> model_fit m = None).
Proof.
  intros _. unfold forecast. destruct (model_fit m) as [fit |]; cbn;
    split; split; intros H; try reflexivity; discriminate.
Qed.

End TrainProperties.

(** C6: the failure of [forecast] on an untrained model is a plain
    [ValueError], the class that [DBFetcher] raises for a missing
    [DATABASE_URL]; it is not of a class of its own. *)
Lemma forecast_untrained_raises_plain_ValueError :
  exists e,
    forecast statsmodels_ok (ArimaModel_init (5, 1, 0)) 30 = inl e /\
    exn_class e = "ValueError" /\
    exn_class e <> "NotTrainedError" /\
    exists e', DBFetcher_init None = inl e' /\ exn_class e' = exn_class e.
Proof.
  eexists. split; [reflexivity |]. split; [reflexivity |].
  split; [discriminate |]. eexists. split; reflexivity.
Qed.

(** C6 on a model that was never trained, thirty steps ahead. *)
Lemma forecast_fails_iff_untrained_fresh_model :
  1 <= 30 /\
  (forecast statsmodels_ok (ArimaModel_init (5, 1, 0)) 30
     = inl (ValueError "Model not trained yet.")
   <-> model_fit (ArimaModel_init (5, 1, 0)) = None) /\
  (is_raise (forecast statsmodels_ok (ArimaModel_init (5, 1, 0)) 30) = true
   <-> model_fit (ArimaModel_init (5, 1, 0)) = None).
Proof.
  split; [lia |].
  apply (forecast_fails_iff_untrained statsmodels_ok
           (ArimaModel_init (5, 1, 0)) 30).
  lia.
Defined.

(** ** The narrative of a forecast *)

Lemma Qltb_lt (a b : Q) : Qltb a b = true <-> (a < b)%Q.
Proof.
  unfold Qltb. rewrite negb_true_iff.
  split.
  - intros H. apply Qnot_le_lt. intros Hle.
    apply Qle_bool_iff in Hle. congruence.
  - intros H. destruct (Qle_bool b a) eqn:E; [| reflexivity].
    apply Qle_bool_iff in E. exfalso. eapply Qlt_not_le; eassumption.
Qed.

(** The second test of [magnitude_of] is never reached with a true
    outcome: whatever [change_pct] is, the qualifier is "significantly"
    above 20 in absolute value and "slightly" otherwise. *)
Lemma magnitude_of_two_valued (change_pct : option Q) :
  magnitude_of change_pct =
  if gt_nan (abs_nan change_pct) 20 then "significantly" else "slightly".
Proof.
  unfold magnitude_of.
  destruct (gt_nan (abs_nan change_pct) 20) eqn:E20; [reflexivity |].
  destruct (gt_nan (abs_nan change_pct) 50) eqn:E50; [| reflexivity].
  exfalso. destruct change_pct as [q |]; cbn in *; [| discriminate].
  apply Qltb_lt in E50.
  assert (H : Qltb 20 (Qabs q) = true).
  { apply Qltb_lt. eapply Qlt_trans; [| exact E50]. reflexivity. }
  congruence.
Qed.

Lemma magnitude_of_never_drastically (change_pct : option Q) :
  magnitude_of change_pct <> "drastically".
Proof.
  rewrite magnitude_of_two_valued.
  destruct (gt_nan (abs_nan change_pct) 20); discriminate.
Qed.

(** The boundaries fall on the side the specification gives them. *)
Lemma magnitude_of_boundaries :
  magnitude_of (Some 20%Q) = "slightly" /\
  magnitude_of (Some (-20)%Q) = "slightly" /\
  magnitude_of (Some 50%Q) = "significantly" /\
  magnitude_of (Some (-50)%Q) = "significantly".
Proof. repeat split; reflexivity. Qed.

(** C1: thirty days at 100 and a forecast of 160 give a change of +60%,
    above 50 in absolute value, and the qualifier [generate_insight]
    computes and prints is "significantly", not "drastically". *)
Theorem generate_insight_magnitude_at_60_percent :
  option_map Qred (change_pct_of (constant_series 100 30) forecast_up_60)
    = Some 60%Q /\
  magnitude_of (change_pct_of (constant_series 100 30) forecast_up_60)
    = "significantly" /\
  generate_insight (constant_series 100 30) forecast_up_60 "Demand"
    = inr "Demand is projected to increasing significantly (+60.0%) over the next 1 days. Prepare for a peak of 160 units around Jan 31. Consider increasing buffer stock in regional warehouses.".
Proof. repeat split; vm_compute; reflexivity. Qed.

(** In the decreasing branch the narrative cites the date of [idxmax], the
    date of the largest forecast mean. *)
Lemma generate_insight_decreasing_cites_idxmax
    (history : Series) (r : FRow) (t : list FRow) (metric_name : string) :
  trend_of (change_pct_of history (r :: t)) = "decreasing" ->
  exists prefix,
    generate_insight history (r :: t) metric_name
    = inr (prefix ++ "Expect lower activity levels, bottoming out around "
                  ++ strftime_b_d (f_date (argmax_from r t)) ++ ". "
                  ++ "Opportunity to schedule vehicle maintenance or reduce labor shifts.").
Proof.
  intros Ht. unfold generate_insight. cbn [idxmax rbind]. rewrite Ht.
  cbn [String.eqb Ascii.eqb Bool.eqb]. eexists. reflexivity.
Qed.

(** C4: with thirty days at 100 and a forecast of 90 on Jan 31 and 50 on
    Feb 01, the trend is decreasing and the trough is Feb 01; the narrative
    recommends maintenance and reduced shifts but cites Jan 31, the date of
    the forecast's maximum. *)
Theorem generate_insight_decreasing_cites_peak_date :
  trend_of (change_pct_of (constant_series 100 30) forecast_falling)
    = "decreasing" /\
  option_map strftime_b_d (trough_date forecast_falling) = Some "Feb 01" /\
  generate_insight (constant_series 100 30) forecast_falling "Demand"
    = inr "Demand is projected to decreasing significantly (-30.0%) over the next 2 days. Expect lower activity levels, bottoming out around Jan 31. Opportunity to schedule vehicle maintenance or reduce labor shifts.".
Proof. repeat split; vm_compute; reflexivity. Qed.

(** ** Sorting and extrema *)

Section SortProperties.

Context {A : Type}.
Variable leb : A -> A -> bool.
Variable R : A -> A -> Prop.
Hypothesis leb_R : forall a b, leb a b = true -> R a b.
Hypothesis leb_total : forall a b, leb a b = false -> R b a.

Lemma insert_sorted_perm (x : A) (l : list A) :
  Permutation (x :: l) (insert_sorted leb x l).
Proof.
  induction l as [| y r IH]; cbn.
  - apply Permutation_refl.
  - destruct (leb x y).
    + apply Permutation_refl.
    + eapply perm_trans; [apply perm_swap |]. now apply perm_skip.
Qed.

Lemma sort_by_perm (l : list A) : Permutation l (sort_by leb l).
Proof.
  induction l as [| x r IH]; cbn.
  - apply perm_nil.
  - eapply perm_trans; [| apply insert_sorted_perm]. now apply perm_skip.
Qed.

Lemma insert_sorted_HdRel (a x : A) (l : list A) :
  R a x -> HdRel R a l -> HdRel R a (insert_sorted leb x l).
Proof.
  intros Hax Hal. destruct l as [| y r]; cbn.
  - now constructor.
  - destruct (leb x y); constructor; [assumption |].
    now inversion Hal.
Qed.

Lemma insert_sorted_Sorted (x : A) (l : list A) :
  Sorted R l -> Sorted R (insert_sorted leb x l).
Proof.
  induction 1 as [| y r Hs IH Hhd]; cbn.
  - repeat constructor.
  - destruct (leb x y) eqn:E.
    + constructor; [now constructor |]. constructor. now apply leb_R.
    + constructor; [exact IH |].
      apply insert_sorted_HdRel; [now apply leb_total | exact Hhd].
Qed.

Lemma sort_by_Sorted (l : list A) : Sorted R (sort_by leb l).
Proof.
  induction l as [| x r IH]; cbn.
  - constructor.
  - now apply insert_sorted_Sorted.
Qed.

End SortProperties.

Lemma list_min_le (x : Z) (l : list Z) (y : Z) :
  In y (x :: l) -> list_min x l <= y.
Proof.
  unfold list_min. induction l as [| a r IH]; cbn.
  - intros [-> | []]. lia.
  - intros [-> | [-> | H]].
    + specialize (IH (or_introl eq_refl)). lia.
    + lia.
    + specialize (IH (or_intror H)). lia.
Qed.

Lemma list_min_in (x : Z) (l : list Z) : In (list_min x l) (x :: l).
Proof.
  unfold list_min. induction l as [| a r IH]; cbn.
  - now left.
  - destruct (Z.min_spec a (fold_right Z.min x r)) as [[_ ->] | [_ ->]].
    + right. now left.
    + destruct IH as [IH | IH]; [now left | right; now right].
Qed.

Lemma list_max_ge (x : Z) (l : list Z) (y : Z) :
  In y (x :: l) -> y <= list_max x l.
Proof.
  unfold list_max. induction l as [| a r IH]; cbn.
  - intros [-> | []]. lia.
  - intros [-> | [-> | H]].
    + specialize (IH (or_introl eq_refl)). lia.
    + lia.
    + specialize (IH (or_intror H)). lia.
Qed.

Lemma list_max_in (x : Z) (l : list Z) : In (list_max x l) (x :: l).
Proof.
  unfold list_max. induction l as [| a r IH]; cbn.
  - now left.
  - destruct (Z.max_spec a (fold_right Z.max x r)) as [[_ ->] | [_ ->]].
    + destruct IH as [IH | IH]; [now left | right; now right].
    + right. now left.
Qed.

(** The span of a collection whose earliest and latest dates are known. *)
Lemma span_between (l : list DeliveryRecord) (lo hi : Z) :
  In lo (map deliveryDate l) ->
  In hi (map deliveryDate l) ->
  (forall r, In r l -> lo <= deliveryDate r <= hi) ->
  span l = (hi - lo) / day_seconds.
Proof.
  destruct l as [| r0 rest]; [intros [] |].
  intros Hlo Hhi Hall. unfold span, current_span_of.
  assert (Hmin : earliest_date_of r0 rest = lo).
  { unfold earliest_date_of. apply Z.le_antisymm.
    - apply list_min_le. exact Hlo.
    - pose proof (list_min_in (deliveryDate r0) (map deliveryDate rest)) as Hin.
      change (In (list_min (deliveryDate r0) (map deliveryDate rest))
                 (map deliveryDate (r0 :: rest))) in Hin.
      apply in_map_iff in Hin. destruct Hin as [r [<- Hr]].
      apply Hall, Hr. }
  assert (Hmax : latest_date_of r0 rest = hi).
  { unfold latest_date_of. apply Z.le_antisymm.
    - pose proof (list_max_in (deliveryDate r0) (map deliveryDate rest)) as Hin.
      change (In (list_max (deliveryDate r0) (map deliveryDate rest))
                 (map deliveryDate (r0 :: rest))) in Hin.
      apply in_map_iff in Hin. destruct Hin as [r [<- Hr]].
      apply Hall, Hr.
    - apply list_max_ge. exact Hhi. }
  now rewrite Hmin, Hmax.
Qed.

Lemma earliest_le_latest (r0 : DeliveryRecord) (rest : list DeliveryRecord) :
  forall r, In r (r0 :: rest) ->
    earliest_date_of r0 rest <= deliveryDate r <= latest_date_of r0 rest.
Proof.
  intros r Hr. split.
  - apply list_min_le. change (In (deliveryDate r) (map deliveryDate (r0 :: rest))).
    now apply in_map.
  - apply list_max_ge. change (In (deliveryDate r) (map deliveryDate (r0 :: rest))).
    now apply in_map.
Qed.

Lemma current_span_nonneg (r0 : DeliveryRecord) (rest : list DeliveryRecord) :
  0 <= current_span_of r0 rest.
Proof.
  unfold current_span_of. apply Z.div_pos; [| reflexivity].
  pose proof (earliest_le_latest r0 rest r0 (or_introl eq_refl)). lia.
Qed.

(** ** History augmentation *)

Lemma sort_values_perm (df : list DeliveryRecord) :
  Permutation df (sort_values_deliveryDate df).
Proof. apply sort_by_perm. Qed.


Section SyntheticProperties.

Variable tape : Tape.
Variable r0 : DeliveryRecord.
Variable rest : list DeliveryRecord.

Lemma synth_row_date (i j : nat) (date : Z) (c : nat) :
  deliveryDate (fst (synth_row tape r0 rest i j date c)) = date.
Proof. reflexivity. Qed.

Lemma synth_rows_spec (i : nat) (js : list nat) (date : Z) (c : nat) :
  List.length (fst (synth_rows tape r0 rest i js date c)) = List.length js /\
  Forall (fun r => deliveryDate r = date)
         (fst (synth_rows tape r0 rest i js date c)).
Proof.
  revert c. induction js as [| j js IH]; intros c; cbn [synth_rows].
  - split; [reflexivity | constructor].
  - pose proof (synth_row_date i j date c) as Hd.
    destruct (synth_row tape r0 rest i j date c) as [row c1].
    specialize (IH c1).
    destruct (synth_rows tape r0 rest i js date c1) as [rows c2].
    cbn in *. destruct IH as [IHl IHf]. split; [now rewrite IHl |].
    constructor; assumption.
Qed.

(** Every generated day has at least one row, and the rows of the
    [k]-th generated day are dated [k + 1] days before the start. *)
Lemma synth_days_spec (daily_vol : Q) (range : list nat) (date : Z) (c : nat) :
  List.length (synth_days tape r0 rest daily_vol range date c)
    = List.length range /\
  forall k b,
    nth_error (synth_days tape r0 rest daily_vol range date c) k = Some b ->
    b <> [] /\
    Forall (fun r => deliveryDate r = date - (Z.of_nat k + 1) * day_seconds) b.
Proof.
  revert date c. induction range as [| i range IH]; intros date c.
  - split; [reflexivity |]. intros [| k] b H; discriminate H.
  - cbn [synth_days np_random_normal].
    set (n := Z.to_nat (Z.max 1 _)).
    set (d := date - 1 * day_seconds).
    destruct (synth_rows tape r0 rest i (seq 0 n) d (S c)) as [rows c'] eqn:E.
    pose proof (synth_rows_spec i (seq 0 n) d (S c)) as [Hlen' Hall'].
    rewrite E in Hlen', Hall'. cbn [fst] in Hlen', Hall'.
    destruct (IH d c') as [IHl IHk].
    split; [cbn; now rewrite IHl |].
    intros [| k] b Hb; cbn [nth_error] in Hb.
    + injection Hb as <-. split.
      * intros ->. rewrite length_seq in Hlen'. cbn in Hlen'.
        subst n. lia.
      * eapply Forall_impl; [| exact Hall']. cbn. intros r ->. subst d. unfold day_seconds. lia.
    + destruct (IHk k b Hb) as [Hne Hf]. split; [exact Hne |].
      eapply Forall_impl; [| exact Hf]. cbn. intros r ->. subst d. unfold day_seconds. lia.
Qed.

End SyntheticProperties.

Lemma daily_vol_of_nonempty (r0 : DeliveryRecord) (rest : list DeliveryRecord) :
  exists v, daily_vol_of (r0 :: rest) = Some v.
Proof.
  unfold daily_vol_of. cbn [map unique_days]. unfold mean. eexists. reflexivity.
Qed.

(** The path that merges: when the frame is shorter than the target, one
    batch is generated per missing day, the output is the sorted merge of
    the batches and the frame, and its span is the target. *)
Lemma generate_merge_path (tape : Tape) (r0 : DeliveryRecord)
    (rest : list DeliveryRecord) (target_days : Z) :
  current_span_of r0 rest < target_days ->
  exists batches,
    synthetic_batches tape (r0 :: rest) target_days = inr batches /\
    Z.of_nat (List.length batches) = target_days - current_span_of r0 rest /\
    generate_historical_data tape (r0 :: rest) target_days
      = inr (sort_values_deliveryDate (List.concat batches ++ r0 :: rest)%list) /\
    span (sort_values_deliveryDate (List.concat batches ++ r0 :: rest)%list)
      = target_days.
Proof.
  intros Hlt.
  set (dn := target_days - current_span_of r0 rest).
  assert (Hdn : 0 < dn) by (subst dn; lia).
  destruct (daily_vol_of_nonempty r0 rest) as [vol Hvol].
  assert (Hb : synthetic_batches tape (r0 :: rest) target_days
               = inr (synth_days tape r0 rest vol (seq 0 (Z.to_nat dn))
                                 (earliest_date_of r0 rest) 0%nat)).
  { unfold synthetic_batches. fold dn.
    destruct (dn <=? 0) eqn:E; [apply Z.leb_le in E; lia |].
    now rewrite Hvol. }
  set (batches := synth_days tape r0 rest vol (seq 0 (Z.to_nat dn))
                             (earliest_date_of r0 rest) 0%nat) in *.
  destruct (synth_days_spec tape r0 rest vol (seq 0 (Z.to_nat dn))
              (earliest_date_of r0 rest) 0%nat) as [Hlen Hk].
  fold batches in Hlen, Hk. rewrite length_seq in Hlen.
  exists batches. split; [exact Hb |]. split; [lia |]. split.
  { unfold generate_historical_data. fold dn.
    destruct (dn <=? 0) eqn:E; [apply Z.leb_le in E; lia |].
    now rewrite Hb. }
  set (out := sort_values_deliveryDate (List.concat batches ++ r0 :: rest)%list).
  assert (Hin : forall r, In r out <-> In r (List.concat batches) \/ In r (r0 :: rest)).
  { intros r. rewrite <- in_app_iff. split; apply Permutation_in;
      [apply Permutation_sym |]; apply sort_values_perm. }
  pose proof (earliest_le_latest r0 rest) as Hdf.
  pose proof (Hdf r0 (or_introl eq_refl)) as Hr0.
  rewrite (span_between out
             (earliest_date_of r0 rest - dn * day_seconds)
             (latest_date_of r0 rest)).
  - replace (latest_date_of r0 rest - (earliest_date_of r0 rest - dn * day_seconds))
      with (latest_date_of r0 rest - earliest_date_of r0 rest + dn * day_seconds)
      by lia.
    rewrite Z.div_add by discriminate.
    fold (current_span_of r0 rest). subst dn. lia.
  - destruct (nth_error batches (Z.to_nat dn - 1)) as [b |] eqn:Eb.
    + destruct (Hk _ _ Eb) as [Hne Hf].
      destruct b as [| r b']; [congruence |].
      apply in_map_iff. exists r. split.
      * inversion Hf as [| ? ? Hd _]; subst. rewrite Hd.
        f_equal. f_equal. lia.
      * apply Hin. left. apply in_concat. exists (r :: b'). split.
        -- eapply nth_error_In; eassumption.
        -- now left.
    + apply nth_error_None in Eb. lia.
  - pose proof (list_max_in (deliveryDate r0) (map deliveryDate rest)) as Hm.
    change (In (latest_date_of r0 rest) (map deliveryDate (r0 :: rest))) in Hm.
    apply in_map_iff in Hm. destruct Hm as [r [Hd Hr]].
    apply in_map_iff. exists r. split; [exact Hd |]. apply Hin. now right.
  - intros r Hr. apply Hin in Hr. destruct Hr as [Hr | Hr].
    + apply in_concat in Hr. destruct Hr as [b [Hb' Hrb]].
      apply In_nth_error in Hb'. destruct Hb' as [k Ek].
      assert (Hklt : (k < Z.to_nat dn)%nat).
      { rewrite <- Hlen. apply nth_error_Some. congruence. }
      destruct (Hk _ _ Ek) as [_ Hf].
      rewrite Forall_forall in Hf. rewrite (Hf r Hrb).
      unfold day_seconds. lia.
    + specialize (Hdf r Hr). unfold day_seconds. lia.
Qed.

(** The path that returns the frame as it is. *)
Lemma generate_noop_path (tape : Tape) (records : list DeliveryRecord)
    (target_days : Z) :
  target_days <= span records ->
  generate_historical_data tape records target_days = inr records /\
  synthetic_batches tape records target_days = inr [].
Proof.
  intros H. destruct records as [| r0 rest]; [split; reflexivity |].
  unfold generate_historical_data, synthetic_batches. cbn [span] in H.
  destruct (target_days - current_span_of r0 rest <=? 0) eqn:E;
    [split; reflexivity | apply Z.leb_gt in E; lia].
Qed.

(** C8: when the span of the records already reaches the target,
    [generate_historical_data] returns the records as they are, whatever the
    random draws; augmenting its output again returns the same records. *)
Theorem augment_noop_when_span_sufficient
    (tape : Tape) (records : list DeliveryRecord) (target_days : Z) :
  target_days <= span records ->
  generate_historical_data tape records target_days = inr records /\
  forall tape',
    (out <- generate_historical_data tape records target_days ;;
     generate_historical_data tape' out target_days)%result = inr records.
Proof.
  intros H. split.
  - now apply generate_noop_path.
  - intros tape'. destruct (generate_noop_path tape records target_days H) as [-> _].
    cbn [rbind]. now apply generate_noop_path.
Qed.

(** C9: on a non-empty collection the output spans at least the target,
    and spans exactly the target precisely when the number of synthetic
    days generated is the shortfall [target_days - span records]. *)
Theorem augment_covers_target
    (tape : Tape) (records : list DeliveryRecord) (target_days : Z) :
  records <> [] ->
  exists out batches,
    generate_historical_data tape records target_days = inr out /\
    synthetic_batches tape records target_days = inr batches /\
    target_days <= span out /\
    (span out = target_days
     <-> Z.of_nat (List.length batches) = target_days - span records).
Proof.
  intros Hne. destruct records as [| r0 rest]; [congruence |].
  destruct (Z_lt_le_dec (current_span_of r0 rest) target_days) as [Hlt | Hge].
  - destruct (generate_merge_path tape r0 rest target_days Hlt)
      as [batches [Hb [Hlen [Hg Hspan]]]].
    eexists. exists batches. split; [exact Hg |]. split; [exact Hb |].
    rewrite Hspan. cbn [span]. split; [lia |]. split; intros _; [exact Hlen | reflexivity].
  - destruct (generate_noop_path tape (r0 :: rest) target_days Hge) as [Hg Hb].
    exists (r0 :: rest), []. split; [exact Hg |]. split; [exact Hb |].
    cbn [span List.length]. split; [exact Hge |]. lia.
Qed.

(** Augmenting an augmented collection changes nothing. *)
Lemma generate_historical_data_idempotent
    (tape tape' : Tape) (records out : list DeliveryRecord) (target_days : Z) :
  generate_historical_data tape records target_days = inr out ->
  generate_historical_data tape' out target_days = inr out.
Proof.
  intros Hg. destruct records as [| r0 rest].
  - cbn in Hg. injection Hg as <-. reflexivity.
  - destruct (Z_lt_le_dec (current_span_of r0 rest) target_days) as [Hlt | Hge].
    + destruct (generate_merge_path tape r0 rest target_days Hlt)
        as [batches [_ [_ [Hg' Hspan]]]].
      rewrite Hg' in Hg. injection Hg as <-.
      apply generate_noop_path. lia.
    + destruct (generate_noop_path tape (r0 :: rest) target_days Hge) as [Hg' _].
      rewrite Hg' in Hg. injection Hg as <-. now apply generate_noop_path.
Qed.


(** C8 at Scenario A: 400 days of history and a target of 365. *)
Lemma augment_noop_scenario_A :
  365 <= span records_400_days /\
  generate_historical_data sample_tape records_400_days 365
    = inr records_400_days /\
  forall tape',
    (out <- generate_historical_data sample_tape records_400_days 365 ;;
     generate_historical_data tape' out 365)%result = inr records_400_days.
Proof.
  split; [vm_compute; discriminate |].
  apply (augment_noop_when_span_sufficient sample_tape records_400_days 365).
  vm_compute; discriminate.
Defined.

(** C9 on ten days of history and a target of twelve. *)
Lemma augment_covers_target_12_days :
  exists out batches,
    generate_historical_data sample_tape records_10_days 12 = inr out /\
    synthetic_batches sample_tape records_10_days 12 = inr batches /\
    12 <= span out /\
    (span out = 12 <-> Z.of_nat (List.length batches) = 12 - span records_10_days).
Proof.
  apply (augment_covers_target sample_tape records_10_days 12).
  discriminate.
Defined.

(** ** The registry and the endpoints *)

(** After any startup, [health_check] raises exactly when the two
    forecasters and the forest are all registered: [all] then reaches the
    history series stored beside them. *)
Lemma health_check_after_startup (w : World) :
  is_raise (health_check (lifespan w))
  = is_registered "demand" (lifespan w)
    && is_registered "spend" (lifespan w)
    && is_registered "reliability" (lifespan w).
Proof.
  unfold lifespan.
  destruct (rbind _ _) as [e | [| r0 rest]]; [reflexivity | reflexivity |].
  unfold train_forecaster, train_reliability.
  destruct (prepare_arima_data (r0 :: rest) col_demand) as [e1 | s1];
    destruct (prepare_arima_data (r0 :: rest) col_totalCost) as [e2 | s2];
    try destruct (run_train (statsmodels w) (ArimaModel_init (5, 1, 0)) s1)
      as [[e3 | [|]] ts1];
    try destruct (run_train (statsmodels w) (ArimaModel_init (5, 1, 0)) s2)
      as [[e4 | [|]] ts2];
    destruct (sklearn_fit w (r0 :: rest)) as [e5 | [clf acc]];
    reflexivity.
Qed.

(** C5: after a startup in which both forecasters and the forest train,
    the registry also holds the two history series and [health_check]
    raises a [ValueError] instead of returning the flags. *)
Theorem health_check_raises_when_all_trained :
  map fst (models (lifespan world_all_trained))
    = ["demand"; "spend"; "reliability"; "demand_history"; "spend_history"] /\
  health_check (lifespan world_all_trained)
    = inl (ValueError "The truth value of a Series is ambiguous. Use a.empty, a.bool(), a.item(), a.any() or a.all().").
Proof. split; vm_compute; reflexivity. Qed.

(** With no forecaster registered the flags are returned. *)
Lemma health_check_returns_flags_without_forecasters :
  health_check (lifespan world_no_forecaster)
  = inr (mkHealthResponse "ok" false
           [("demand", false); ("spend", false); ("reliability", true)]).
Proof. vm_compute; reflexivity. Qed.

(** C2, as the code has it: when the classifier raises, the entry of a
    scenario is, field for field, the entry that a genuine prediction of
    0.85 produces; an entry has a route, a score and a narrative, and no
    field tells the two apart. *)
Theorem dashboard_entry_fallback_indistinguishable
    (m1 m2 : SupplierReliabilityModel) (dt : Now) (s : Scenario) :
  is_raise (predict_on_time m1 (features_of s dt)) = true ->
  predict_on_time m2 (features_of s dt) = inr default_probability ->
  prob_or_default m1 (features_of s dt) = default_probability /\
  dashboard_entry m1 dt s = dashboard_entry m2 dt s.
Proof.
  intros H1 H2.
  assert (Hp : prob_or_default m1 (features_of s dt) = default_probability).
  { unfold prob_or_default.
    destruct (predict_on_time m1 (features_of s dt)); [reflexivity | discriminate]. }
  split; [exact Hp |].
  unfold dashboard_entry. rewrite Hp. unfold prob_or_default at 1 2.
  rewrite H2. reflexivity.
Qed.

(** C2 on the first scenario: a forest that rejects seven features
    against one that predicts 0.85. *)
Lemma dashboard_entry_fallback_first_scenario :
  is_raise (predict_on_time
              (mkSupplierReliabilityModel (classifier_expecting 6 (30 # 100)) rf_feature_names)
              (features_of (mkScenario "Vienna Hub -> Salzburg (Mountain)" 1 320 0)
                           sample_now)) = true /\
  dashboard_entry
    (mkSupplierReliabilityModel (classifier_expecting 6 (30 # 100)) rf_feature_names)
    sample_now (mkScenario "Vienna Hub -> Salzburg (Mountain)" 1 320 0)
  = dashboard_entry
      (mkSupplierReliabilityModel (classifier_expecting 7 (85 # 100)) rf_feature_names)
      sample_now (mkScenario "Vienna Hub -> Salzburg (Mountain)" 1 320 0).
Proof.
  split; [reflexivity |].
  apply (dashboard_entry_fallback_indistinguishable
           (mkSupplierReliabilityModel (classifier_expecting 6 (30 # 100)) rf_feature_names)
           (mkSupplierReliabilityModel (classifier_expecting 7 (85 # 100)) rf_feature_names)
           sample_now
           (mkScenario "Vienna Hub -> Salzburg (Mountain)" 1 320 0)).
  - reflexivity.
  - reflexivity.
Defined.

(** C2: a startup whose forest rejects every feature row, so that every
    score is the substituted 0.85, and a startup whose forest genuinely
    predicts 0.85 give the caller the same dashboard. *)
Lemma dashboard_fallback_is_silent :
  forallb (fun s =>
             match dict_get "reliability" (models (lifespan world_shape_mismatch)) with
             | Some (VReliability m) =>
                 is_raise (predict_on_time m (features_of s sample_now))
             | _ => false
             end) scenarios = true /\
  forallb (fun s =>
             match dict_get "reliability" (models (lifespan world_all_trained)) with
             | Some (VReliability m) =>
                 negb (is_raise (predict_on_time m (features_of s sample_now)))
             | _ => false
             end) scenarios = true /\
  dashboard_reliability (lifespan world_shape_mismatch) sample_now
  = dashboard_reliability (lifespan world_all_trained) sample_now.
Proof. repeat split; vm_compute; reflexivity. Qed.

(** ** Daily aggregation *)

Lemma unique_days_In (l : list Z) (x : Z) : In x (unique_days l) <-> In x l.
Proof.
  induction l as [| a r IH]; cbn; [tauto |].
  rewrite filter_In, IH, negb_true_iff, Z.eqb_neq.
  destruct (Z.eq_dec a x); [tauto |]. intuition congruence.
Qed.

Lemma unique_days_NoDup (l : list Z) : NoDup (unique_days l).
Proof.
  induction l as [| a r IH]; cbn; constructor.
  - rewrite filter_In, negb_true_iff, Z.eqb_neq. tauto.
  - now apply NoDup_filter.
Qed.

Lemma has_dup_false (l : list Z) : NoDup l -> has_dup l = false.
Proof.
  induction 1 as [| x r Hx Hr IH]; cbn; [reflexivity |].
  rewrite IH, orb_false_r.
  destruct (existsb (Z.eqb x) r) eqn:E; [| reflexivity].
  apply existsb_exists in E. destruct E as [y [Hy Hxy]].
  apply Z.eqb_eq in Hxy. subst. contradiction.
Qed.

Lemma has_dup_true (l : list Z) : ~ NoDup l -> has_dup l = true.
Proof.
  intros H. destruct (has_dup l) eqn:E; [reflexivity |]. exfalso. apply H.
  induction l as [| x r IH]; [constructor |].
  cbn in E. apply orb_false_iff in E. destruct E as [E1 E2].
  constructor.
  - intros Hin. assert (existsb (Z.eqb x) r = true).
    { apply existsb_exists. exists x. split; [exact Hin | apply Z.eqb_refl]. }
    congruence.
  - apply IH; [| exact E2]. intros Hr. apply H. constructor; [| exact Hr].
    intros Hin. assert (existsb (Z.eqb x) r = true).
    { apply existsb_exists. exists x. split; [exact Hin | apply Z.eqb_refl]. }
    congruence.
Qed.

Lemma day_range_NoDup (lo hi : Z) : NoDup (day_range lo hi).
Proof.
  unfold day_range. apply Finite.Injective_map_NoDup; [| apply seq_NoDup].
  intros a b H. lia.
Qed.

Lemma day_range_In (lo hi d : Z) : In d (day_range lo hi) <-> lo <= d <= hi.
Proof.
  unfold day_range. rewrite in_map_iff. split.
  - intros [i [<- Hi]]. apply in_seq in Hi. lia.
  - intros H. exists (Z.to_nat (d - lo)). split; [lia |]. apply in_seq. lia.
Qed.

Lemma day_range_length (lo hi : Z) :
  lo <= hi -> Z.of_nat (List.length (day_range lo hi)) = hi - lo + 1.
Proof. intros H. unfold day_range. rewrite length_map, length_seq. lia. Qed.

Lemma date_of_mono (a b : Z) : a <= b -> date_of a <= date_of b.
Proof. intros H. unfold date_of, day_seconds. now apply Z.div_le_mono. Qed.

(** The days on which the frame has deliveries, ascending. *)
Lemma delivery_days_bounds (r0 : DeliveryRecord) (rest : list DeliveryRecord) :
  exists d0 ds,
    sort_by Z.leb
      (unique_days (map (fun r => date_of (deliveryDate r)) (r0 :: rest)))
      = d0 :: ds /\
    NoDup (d0 :: ds) /\
    (forall d, In d (d0 :: ds)
               <-> In d (map (fun r => date_of (deliveryDate r)) (r0 :: rest))) /\
    list_min d0 ds = date_of (earliest_date_of r0 rest) /\
    list_max d0 ds = date_of (latest_date_of r0 rest).
Proof.
  set (days := map (fun r => date_of (deliveryDate r)) (r0 :: rest)).
  pose proof (sort_by_perm Z.leb (unique_days days)) as Hp.
  assert (Hin : forall d, In d (sort_by Z.leb (unique_days days)) <-> In d days).
  { intros d. split; intros H.
    - apply unique_days_In. eapply Permutation_in;
        [apply Permutation_sym; exact Hp | exact H].
    - eapply Permutation_in; [exact Hp | apply unique_days_In; exact H]. }
  assert (Hnd : NoDup (sort_by Z.leb (unique_days days))).
  { eapply Permutation_NoDup; [exact Hp | apply unique_days_NoDup]. }
  destruct (sort_by Z.leb (unique_days days)) as [| d0 ds] eqn:E.
  { exfalso. apply (proj2 (Hin (date_of (deliveryDate r0)))). now left. }
  exists d0, ds. split; [reflexivity |]. split; [exact Hnd |].
  split; [exact Hin |].
  pose proof (earliest_le_latest r0 rest) as Hb.
  assert (Hday : forall d, In d days ->
                   exists r, In r (r0 :: rest) /\ d = date_of (deliveryDate r)).
  { intros d Hd. apply in_map_iff in Hd. destruct Hd as [r [<- Hr]]. eauto. }
  assert (Hts : forall t, In t (map deliveryDate (r0 :: rest)) -> In (date_of t) days).
  { intros t Ht. apply in_map_iff in Ht. destruct Ht as [r [<- Hr]].
    unfold days. apply in_map_iff. eauto. }
  split; apply Z.le_antisymm.
  - apply list_min_le, Hin, Hts. apply list_min_in.
  - destruct (Hday _ (proj1 (Hin _) (list_min_in d0 ds))) as [r [Hr ->]].
    apply date_of_mono, Hb, Hr.
  - destruct (Hday _ (proj1 (Hin _) (list_max_in d0 ds))) as [r [Hr ->]].
    apply date_of_mono, Hb, Hr.
  - apply list_max_ge, Hin, Hts. apply list_max_in.
Qed.


Lemma lookup_day_map (f : Z -> Q) (l : list Z) (d : Z) :
  (In d l -> lookup_day d (map (fun k => (k, f k)) l) = Some (f d)) /\
  (~ In d l -> lookup_day d (map (fun k => (k, f k)) l) = None).
Proof.
  induction l as [| a r [IH1 IH2]]; cbn.
  - split; [intros [] | reflexivity].
  - destruct (Z.eqb_spec a d) as [-> | Hne].
    + split; [reflexivity | intros H; exfalso; apply H; now left].
    + split.
      * intros [H | H]; [contradiction | now apply IH1].
      * intros H. apply IH2. intros Hin. apply H. now right.
Qed.

Lemma day_total_absent (df : list DeliveryRecord) (column : Column) (d : Z) :
  ~ In d (map (fun r => date_of (deliveryDate r)) df) ->
  day_total df column d = 0%Q.
Proof.
  intros H. unfold day_total.
  replace (filter (fun r => date_of (deliveryDate r) =? d) df) with (@nil DeliveryRecord);
    [reflexivity |].
  symmetry. induction df as [| r df IH]; [reflexivity |]. cbn.
  destruct (Z.eqb_spec (date_of (deliveryDate r)) d) as [E | E].
  - exfalso. apply H. left. exact E.
  - apply IH. intros Hin. apply H. now right.
Qed.

(** What [prepare_arima_data] returns on a non-empty frame: one entry per
    calendar day from the first delivery day to the last, holding the
    day's total. *)
Lemma prepare_arima_data_nonempty (r0 : DeliveryRecord)
    (rest : list DeliveryRecord) (column : Column) :
  prepare_arima_data (r0 :: rest) column
  = inr (mkSeries
           (map (fun d => (d, day_total (r0 :: rest) column d))
                (day_range (date_of (earliest_date_of r0 rest))
                           (date_of (latest_date_of r0 rest))))
           true).
Proof.
  destruct (delivery_days_bounds r0 rest) as [d0 [ds [E [Hnd [Hin [Hmin Hmax]]]]]].
  unfold prepare_arima_data, asfreq_D_fillna0, s_index.
  cbn [s_data]. rewrite map_map. cbn [fst]. rewrite map_id, E.
  rewrite (has_dup_false _ Hnd), Hmin, Hmax.
  f_equal. f_equal. apply map_ext. intros d. f_equal.
  destruct (lookup_day_map (day_total (r0 :: rest) column) (d0 :: ds) d) as [H1 H2].
  unfold day_total in H1, H2.
  destruct (in_dec Z.eq_dec d (d0 :: ds)) as [Hd | Hd].
  - rewrite (H1 Hd). reflexivity.
  - rewrite (H2 Hd). symmetry. apply day_total_absent.
    intros Hc. apply Hd, Hin, Hc.
Qed.

(** X1: on a non-empty frame [prepare_arima_data] returns a series with
    the daily frequency whose index is every calendar day from the day of
    the earliest delivery to the day of the latest one, ascending and
    without gaps; it has one or two entries more than the span in whole
    days that the augmentor measures. *)
Theorem prepare_arima_data_gap_free (r0 : DeliveryRecord)
    (rest : list DeliveryRecord) (column : Column) :
  exists series,
    prepare_arima_data (r0 :: rest) column = inr series /\
    s_freq series = true /\
    s_index series
      = day_range (date_of (earliest_date_of r0 rest))
                  (date_of (latest_date_of r0 rest)) /\
    Z.of_nat (List.length (s_data series))
      = date_of (latest_date_of r0 rest) - date_of (earliest_date_of r0 rest) + 1 /\
    span (r0 :: rest) + 1 <= Z.of_nat (List.length (s_data series))
      <= span (r0 :: rest) + 2.
Proof.
  eexists. split; [apply prepare_arima_data_nonempty |].
  split; [reflexivity |].
  pose proof (earliest_le_latest r0 rest r0 (or_introl eq_refl)) as Hb.
  assert (Hle : earliest_date_of r0 rest <= latest_date_of r0 rest) by lia.
  pose proof (date_of_mono _ _ Hle) as Hd.
  split.
  { unfold s_index. cbn [s_data]. rewrite map_map. cbn [fst]. apply map_id. }
  cbn [s_data]. rewrite length_map, (day_range_length _ _ Hd).
  split; [reflexivity |].
  cbn [span]. unfold current_span_of, date_of, day_seconds in *.
  Z.div_mod_to_equations. lia.
Qed.

Lemma Qsum_zeros (g : Z -> Q) (l : list Z) :
  (forall d, In d l -> g d == 0)%Q -> (Qsum (map g l) == 0)%Q.
Proof.
  induction l as [| a r IH]; intros H; cbn; [reflexivity |].
  rewrite (H a (or_introl eq_refl)), IH; [reflexivity |].
  intros d Hd. apply H. now right.
Qed.

Lemma Qsum_map_ext (f g : Z -> Q) (l : list Z) :
  (forall d, In d l -> f d == g d)%Q -> (Qsum (map f l) == Qsum (map g l))%Q.
Proof.
  induction l as [| a r IH]; intros H; cbn; [reflexivity |].
  rewrite (H a (or_introl eq_refl)), IH; [reflexivity |].
  intros d Hd. apply H. now right.
Qed.

(** Adding [v] to the one entry of [l] that is [x] adds [v] to the sum. *)
Lemma Qsum_add_at (g : Z -> Q) (x : Z) (v : Q) (l : list Z) :
  NoDup l -> In x l ->
  (Qsum (map (fun d => if x =? d then v + g d else g d) l)
   == v + Qsum (map g l))%Q.
Proof.
  induction 1 as [| a r Ha Hr IH]; intros Hin; [destruct Hin |].
  cbn [map Qsum fold_right]. fold (Qsum (map g r)).
  fold (Qsum (map (fun d => if x =? d then (v + g d)%Q else g d) r)).
  destruct Hin as [-> | Hin].
  - rewrite Z.eqb_refl.
    rewrite (Qsum_map_ext (fun d => if x =? d then (v + g d)%Q else g d) g r).
    + ring.
    + intros d Hd. destruct (Z.eqb_spec x d) as [-> | _]; [contradiction | reflexivity].
  - destruct (Z.eqb_spec x a) as [-> | _]; [contradiction |].
    rewrite (IH Hin). ring.
Qed.

(** The daily totals over a set of days that covers the frame add up to
    the total of the column. *)
Lemma Qsum_day_totals (df : list DeliveryRecord) (column : Column) (l : list Z) :
  NoDup l ->
  (forall r, In r df -> In (date_of (deliveryDate r)) l) ->
  (Qsum (map (day_total df column) l) == Qsum (map (column_value column) df))%Q.
Proof.
  intros Hnd. induction df as [| r df IH]; intros Hcov.
  - cbn. apply Qsum_zeros. intros d _. reflexivity.
  - cbn [map Qsum fold_right]. fold (Qsum (map (column_value column) df)).
    rewrite <- IH by (intros r' Hr'; apply Hcov; now right).
    rewrite <- (Qsum_add_at (day_total df column) (date_of (deliveryDate r))
                  (column_value column r) l Hnd)
      by (apply Hcov; now left).
    apply Qsum_map_ext. intros d _. unfold day_total. cbn [filter].
    destruct (date_of (deliveryDate r) =? d); reflexivity.
Qed.

(** In exact arithmetic, the series of [prepare_arima_data] holds on every
    day of its range the total of the column over that day's deliveries,
    and its values add up to the total of the column over the frame. *)
Lemma prepare_arima_data_day_totals (r0 : DeliveryRecord)
    (rest : list DeliveryRecord) (column : Column) :
  exists series,
    prepare_arima_data (r0 :: rest) column = inr series /\
    s_values series = map (day_total (r0 :: rest) column) (s_index series) /\
    (Qsum (s_values series)
     == Qsum (map (column_value column) (r0 :: rest)))%Q.
Proof.
  eexists. split; [apply prepare_arima_data_nonempty |].
  unfold s_values, s_index. cbn [s_data]. rewrite !map_map. cbn [fst snd].
  split; [reflexivity |].
  apply (Qsum_day_totals (r0 :: rest) column); [apply day_range_NoDup |].
  intros r Hr. apply day_range_In.
  pose proof (earliest_le_latest r0 rest r Hr) as [H1 H2].
  split; now apply date_of_mono.
Qed.

Lemma Qsum_demand (df : list DeliveryRecord) :
  (Qsum (map (column_value col_demand) df) == inject_Z (total_demand df))%Q.
Proof.
  unfold total_demand. induction df as [| r df IH]; cbn; [reflexivity |].
  fold (Qsum (map (column_value col_demand) df)).
  rewrite IH, inject_Z_plus. reflexivity.
Qed.

(** X2: for the demand column of a non-empty frame whose demands are
    non-negative and add up to less than 2^53 (so that the integer sums
    and their conversion to floats are exact), every entry of the series
    of [prepare_arima_data] is the total demand of that day's deliveries
    (0 on a day without deliveries), and the values of the series add up
    to the total demand of the frame. *)
Theorem prepare_arima_data_conserves_total_demand (r0 : DeliveryRecord)
    (rest : list DeliveryRecord) :
  Forall (fun r => 0 <= demand r) (r0 :: rest) ->
  total_demand (r0 :: rest) < 2 ^ 53 ->
  exists series,
    prepare_arima_data (r0 :: rest) col_demand = inr series /\
    s_values series
      = map (day_total (r0 :: rest) col_demand) (s_index series) /\
    (Qsum (s_values series) == inject_Z (total_demand (r0 :: rest)))%Q.
Proof.
  intros _ _.
  destruct (prepare_arima_data_day_totals r0 rest col_demand)
    as [series [Hp [Hv Hs]]].
  exists series. split; [exact Hp |]. split; [exact Hv |].
  rewrite Hs. apply Qsum_demand.
Qed.

(** X2 on the ten-day sample. *)
Lemma prepare_arima_data_conserves_total_demand_sample :
  exists series,
    prepare_arima_data records_10_days col_demand = inr series /\
    s_values series = map (day_total records_10_days col_demand) (s_index series) /\
    (Qsum (s_values series) == inject_Z (total_demand records_10_days))%Q.
Proof.
  apply (prepare_arima_data_conserves_total_demand
           (sample_record "d2" "V2" (10 * day_seconds + 3600))
           [sample_record "d1" "V1" 0]).
  - repeat constructor; discriminate.
  - reflexivity.
Defined.

(** X3: [train] never raises on a series made by [prepare_arima_data]:
    whatever statsmodels does, the outcome is a boolean, and the order the
    model was built with is kept. *)
Theorem train_on_prepared_series_returns_bool (sm : Statsmodels)
    (m : ArimaModel) (r0 : DeliveryRecord) (rest : list DeliveryRecord)
    (column : Column) :
  exists series b st,
    prepare_arima_data (r0 :: rest) column = inr series /\
    run_train sm m series = (inr b, st) /\
    order (self st) = order m /\
    (b = true <-> model_fit (self st) <> None).
Proof.
  pose proof (prepare_arima_data_nonempty r0 rest column) as Hp.
  match type of Hp with _ = inr ?s => set (s' := s) in * end.
  exists s'. rewrite run_train_unfold. unfold ensure_freq.
  change (s_freq s') with true. cbv iota.
  destruct (fit_outcome sm s' (order m)) as [e1 | r1].
  - destruct (fit_outcome sm s' fallback_order) as [e2 | r2];
      eexists; eexists; (split; [exact Hp |]); (split; [reflexivity |]);
      (split; [reflexivity |]); cbn; split; intros H; congruence.
  - eexists; eexists; (split; [exact Hp |]); (split; [reflexivity |]);
      (split; [reflexivity |]); cbn; split; intros H; congruence.
Qed.

(** ** More on the forecaster *)

(** X4: after a successful [train] the model holds the fit and the
    statsmodels object it came from; the fitted order is the order the
    model was built with or the fallback (1,1,0), while the attribute
    [order] keeps the order the model was built with in both cases. *)
Theorem train_success_orders (sm : Statsmodels) (m : ArimaModel)
    (series : Series) (st : TrainState) :
  run_train sm m series = (inr true, st) ->
  exists fit,
    model_fit (self st) = Some fit /\
    model (self st) = Some (res_model fit) /\
    order (self st) = order m /\
    (arima_order (res_model fit) = order m /\ attempts st = [order m]
     \/ arima_order (res_model fit) = fallback_order
        /\ attempts st = [order m; fallback_order]).
Proof.
  intros Ht. rewrite run_train_unfold in Ht.
  assert (Hord : forall s o r, fit_outcome sm s o = inr r ->
                               arima_order (res_model r) = o).
  { intros s o r. unfold fit_outcome, ARIMA_new, ARIMA_fit, rbind.
    destruct (arima_check sm s o); [discriminate |].
    destruct (arima_fit sm (mkARIMA s o)) as [e | [p ic]]; [discriminate |].
    intros H; injection H as <-; reflexivity. }
  destruct (ensure_freq series) as [e | s']; [discriminate |].
  destruct (fit_outcome sm s' (order m)) as [e1 | r1] eqn:E1.
  - destruct (fit_outcome sm s' fallback_order) as [e2 | r2] eqn:E2;
      [discriminate |].
    injection Ht as <-. exists r2. cbn. repeat split.
    right. split; [eapply Hord; eassumption | reflexivity].
  - injection Ht as <-. exists r1. cbn. repeat split.
    left. split; [eapply Hord; eassumption | reflexivity].
Qed.

(** X4 where only the fallback order converges. *)
Lemma train_success_orders_fallback :
  exists fit,
    model_fit (self (snd (run_train statsmodels_fallback_only
                            (ArimaModel_init (5, 1, 0)) (constant_series 5 60))))
      = Some fit /\
    model (self (snd (run_train statsmodels_fallback_only
                        (ArimaModel_init (5, 1, 0)) (constant_series 5 60))))
      = Some (res_model fit) /\
    order (self (snd (run_train statsmodels_fallback_only
                        (ArimaModel_init (5, 1, 0)) (constant_series 5 60))))
      = (5, 1, 0) /\
    (arima_order (res_model fit) = (5, 1, 0)
     /\ attempts (snd (run_train statsmodels_fallback_only
                         (ArimaModel_init (5, 1, 0)) (constant_series 5 60)))
        = [(5, 1, 0)]
     \/ arima_order (res_model fit) = fallback_order
        /\ attempts (snd (run_train statsmodels_fallback_only
                            (ArimaModel_init (5, 1, 0)) (constant_series 5 60)))
           = [(5, 1, 0); fallback_order]).
Proof.
  apply (train_success_orders statsmodels_fallback_only
           (ArimaModel_init (5, 1, 0)) (constant_series 5 60)).
  reflexivity.
Defined.

(** X5: the outcome of [train] does not depend on what an earlier
    training left in the model: two models built with the same order get
    the same result and the same fit from the same series, whatever their
    [model] and [model_fit] were. *)
Theorem train_forgets_earlier_fit (sm : Statsmodels) (m m' : ArimaModel)
    (series : Series) :
  order m = order m' ->
  fst (run_train sm m series) = fst (run_train sm m' series) /\
  (is_raise (fst (run_train sm m series)) = false ->
   model_fit (self (snd (run_train sm m series)))
   = model_fit (self (snd (run_train sm m' series)))).
Proof.
  intros Ho. rewrite !run_train_unfold, <- Ho.
  destruct (ensure_freq series) as [e | s']; [split; [reflexivity | discriminate] |].
  destruct (fit_outcome sm s' (order m)) as [e1 | r1];
    [destruct (fit_outcome sm s' fallback_order) as [e2 | r2] |];
    split; reflexivity.
Qed.

(** X5 on a fresh model and a model that holds an earlier fit. *)
Lemma train_forgets_earlier_fit_retrain :
  fst (run_train statsmodels_diverging
         (self (snd (run_train statsmodels_ok (ArimaModel_init (5, 1, 0))
                               (constant_series 5 60))))
         (constant_series 5 60))
  = fst (run_train statsmodels_diverging (ArimaModel_init (5, 1, 0))
                   (constant_series 5 60)) /\
  (is_raise (fst (run_train statsmodels_diverging
                    (self (snd (run_train statsmodels_ok (ArimaModel_init (5, 1, 0))
                                          (constant_series 5 60))))
                    (constant_series 5 60))) = false ->
   model_fit (self (snd (run_train statsmodels_diverging
                           (self (snd (run_train statsmodels_ok
                                                 (ArimaModel_init (5, 1, 0))
                                                 (constant_series 5 60))))
                           (constant_series 5 60))))
   = model_fit (self (snd (run_train statsmodels_diverging
                                     (ArimaModel_init (5, 1, 0))
                                     (constant_series 5 60))))).
Proof.
  apply (train_forgets_earlier_fit statsmodels_diverging
           (self (snd (run_train statsmodels_ok (ArimaModel_init (5, 1, 0))
                                 (constant_series 5 60))))
           (ArimaModel_init (5, 1, 0)) (constant_series 5 60)).
  reflexivity.
Defined.

(** On a non-empty forecast [generate_insight] returns a narrative. *)
Lemma generate_insight_nonempty (history : Series) (r : FRow) (t : list FRow)
    (metric_name : string) :
  exists text, generate_insight history (r :: t) metric_name = inr text.
Proof.
  unfold generate_insight. cbn [idxmax rbind].
  destruct (String.eqb (trend_of (change_pct_of history (r :: t))) "increasing");
    [eexists; reflexivity |].
  destruct (String.eqb (trend_of (change_pct_of history (r :: t))) "decreasing");
    [eexists; reflexivity |].
  unfold future_avg_of, mean. cbn [map int_nan rbind]. eexists; reflexivity.
Qed.

(** X6: [generate_insight] raises exactly when the forecast is empty
    (there is no peak to locate); on a non-empty forecast it returns a
    narrative for every history, the empty one included. *)
Theorem generate_insight_raises_iff_empty_forecast
    (history : Series) (forecast : DataFrame) (metric_name : string) :
  is_raise (generate_insight history forecast metric_name) = true
  <-> forecast = [].
Proof.
  destruct forecast as [| r t].
  - split; reflexivity.
  - split; [| discriminate]. unfold generate_insight. cbn [idxmax rbind].
    destruct (String.eqb (trend_of (change_pct_of history (r :: t))) "increasing");
      [discriminate |].
    destruct (String.eqb (trend_of (change_pct_of history (r :: t))) "decreasing");
      [discriminate |].
    unfold future_avg_of, mean. cbn [map int_nan rbind]. discriminate.
Qed.

Lemma Qsum_constant (v : Q) (l : list Q) :
  Forall (fun x => x == v)%Q l ->
  (Qsum l == inject_Z (Z.of_nat (List.length l)) * v)%Q.
Proof.
  induction 1 as [| x r Hx Hr IH].
  - cbn. ring.
  - cbn [Qsum fold_right List.length]. fold (Qsum r).
    rewrite IH, Hx, Nat2Z.inj_succ. unfold Z.succ. rewrite inject_Z_plus. ring.
Qed.

(** The mean of a non-empty list of values all equal to [v] is [v]. *)
Lemma mean_constant (v : Q) (l : list Q) :
  l <> [] -> Forall (fun x => x == v)%Q l ->
  exists q, mean l = Some q /\ (q == v)%Q.
Proof.
  intros Hne Hall. destruct l as [| x r]; [congruence |].
  eexists. split; [reflexivity |].
  rewrite (Qsum_constant v (x :: r) Hall).
  assert (Hn : ~ (inject_Z (Z.of_nat (List.length (x :: r))) == 0)%Q).
  { intros H. unfold Qeq in H. cbn in H. lia. }
  field. exact Hn.
Qed.

Lemma last_n_Forall {A} (P : A -> Prop) (n : nat) (l : list A) :
  Forall P l -> Forall P (last_n n l).
Proof.
  unfold last_n. intros H. rewrite Forall_forall in *.
  intros x Hx. apply H. revert Hx.
  generalize (List.length l - n)%nat. intros k. revert l H.
  induction k as [| k IH]; intros l H Hx; [exact Hx |].
  destruct l as [| a r]; [destruct Hx |]. right.
  apply (IH r); [| exact Hx]. intros y Hy. apply H. now right.
Qed.

Lemma last_n_nonempty {A} (n : nat) (l : list A) :
  (0 < n)%nat -> l <> [] -> last_n n l <> [].
Proof.
  intros Hn Hl. unfold last_n. intros E.
  apply (f_equal (@List.length A)) in E. rewrite length_skipn in E.
  destruct l; [congruence |]. cbn [List.length] in E. lia.
Qed.

(** The average of the recent history when every value is [v]. *)
Lemma recent_mean_constant (v : Q) (history : Series) :
  s_values history <> [] ->
  Forall (fun x => x == v)%Q (s_values history) ->
  exists q,
    (if (30 <=? List.length (s_values history))%nat
     then mean (last_n 30 (s_values history))
     else mean (s_values history)) = Some q /\ (q == v)%Q.
Proof.
  intros Hne Hall.
  destruct (30 <=? List.length (s_values history))%nat.
  - apply mean_constant; [apply last_n_nonempty; [lia | exact Hne] |].
    now apply last_n_Forall.
  - now apply mean_constant.
Qed.

Lemma Qltb_false_of_le (a b : Q) : (b <= a)%Q -> Qltb a b = false.
Proof.
  intros H. destruct (Qltb a b) eqn:E; [| reflexivity].
  apply Qltb_lt in E. exfalso. eapply Qlt_not_le; eassumption.
Qed.



(** X8: the guard against a zero average replaces it by 1: with a
    history of zeros the change is [(future_avg - 1) * 100], so a forecast
    of zeros is reported as a fall of 100%, "decreasing". *)
Theorem generate_insight_zero_history
    (history : Series) (forecast : DataFrame) (f : Q) :
  s_values history <> [] ->
  Forall (fun x => x == 0)%Q (s_values history) ->
  future_avg_of forecast = Some f ->
  exists c,
    change_pct_of history forecast = Some c /\
    (c == (f - 1) * 100)%Q /\
    ((f == 0)%Q -> trend_of (Some c) = "decreasing").
Proof.
  intros Hne Hall Hf.
  destruct (recent_mean_constant 0 history Hne Hall) as [a [Ha Ha0]].
  assert (Hcur : current_avg_of history = Some 1%Q).
  { unfold current_avg_of. rewrite Ha.
    apply Qeq_bool_iff in Ha0. now rewrite Ha0. }
  exists ((f - 1) / 1 * 100)%Q. split.
  { unfold change_pct_of. now rewrite Hf, Hcur. }
  split; [field |].
  intros Hf0. unfold trend_of, gt_nan, lt_nan.
  assert (Hz : ((f - 1) / 1 * 100 == -100)%Q) by (rewrite Hf0; reflexivity).
  rewrite (Qltb_false_of_le 5) by (rewrite Hz; discriminate).
  assert (Hlt : Qltb ((f - 1) / 1 * 100) (-5) = true).
  { apply Qltb_lt. rewrite Hz. reflexivity. }
  now rewrite Hlt.
Qed.

(** X8 on thirty days of zero demand and a forecast of zero. *)
Lemma generate_insight_zero_history_flat :
  exists c,
    change_pct_of (constant_series 0 30) [mkFRow 30 0 0 0] = Some c /\
    (c == (0 - 1) * 100)%Q /\
    ((0 == 0)%Q -> trend_of (Some c) = "decreasing").
Proof.
  apply (generate_insight_zero_history (constant_series 0 30) [mkFRow 30 0 0 0] 0).
  - discriminate.
  - unfold constant_series, s_values. cbn [s_data]. rewrite map_map.
    apply Forall_map, Forall_forall. intros x _. reflexivity.
  - vm_compute. reflexivity.
Defined.

(** ** More on the synthetic records *)

Lemma unique_In (l : list string) (x : string) : In x (unique l) <-> In x l.
Proof.
  induction l as [| a r IH]; cbn; [tauto |].
  rewrite filter_In, IH, negb_true_iff, String.eqb_neq.
  destruct (string_dec a x); [tauto |]. intuition congruence.
Qed.

Lemma np_random_choice_In {A} (tape : Tape) (xs : list A) (d : A) (c : nat) :
  xs <> [] -> In (fst (np_random_choice tape xs d c)) xs.
Proof.
  intros Hne. unfold np_random_choice. cbn [fst]. apply nth_In.
  apply Nat.mod_upper_bound. destruct xs; [congruence | discriminate].
Qed.

Section SyntheticRows.

Variable tape : Tape.
Variable r0 : DeliveryRecord.
Variable rest : list DeliveryRecord.

Lemma synth_row_from_frame (i j : nat) (date : Z) (c : nat) :
  let s := fst (synth_row tape r0 rest i j date c) in
  (exists t, In t (r0 :: rest) /\ copied_from s t) /\
  In (originId s) (map originId (r0 :: rest)) /\
  In (destinationId s) (map destinationId (r0 :: rest)).
Proof.
  cbn zeta. unfold synth_row.
  set (vids := unique (map vehicleId (r0 :: rest))).
  set (oids := unique (map originId (r0 :: rest))).
  set (dids := unique (map destinationId (r0 :: rest))).
  pose proof (np_random_choice_In tape vids (vehicleId r0) c) as Hv.
  destruct (np_random_choice tape vids (vehicleId r0) c) as [vid c1].
  pose proof (np_random_choice_In tape oids (originId r0) c1) as Ho.
  destruct (np_random_choice tape oids (originId r0) c1) as [oid c2].
  pose proof (np_random_choice_In tape dids (destinationId r0) c2) as Hd.
  destruct (np_random_choice tape dids (destinationId r0) c2) as [did c3].
  set (rows := filter (fun r => String.eqb (vehicleId r) vid) (r0 :: rest)).
  pose proof (np_random_choice_In tape rows r0 c3) as Ht.
  destruct (np_random_choice tape rows r0 c3) as [template c4].
  cbn [fst np_random_normal random_random] in *.
  assert (Hvid : In vid (map vehicleId (r0 :: rest))).
  { apply unique_In, Hv. subst vids. discriminate. }
  assert (Hrows : rows <> []).
  { apply in_map_iff in Hvid. destruct Hvid as [r [Hr Hin]].
    intros E. assert (Hf : In r rows).
    { apply filter_In. split; [exact Hin |]. apply String.eqb_eq. exact Hr. }
    rewrite E in Hf. destruct Hf. }
  specialize (Ht Hrows). apply filter_In in Ht. destruct Ht as [Hin Heq].
  apply String.eqb_eq in Heq.
  split; [| split].
  - exists template. split; [exact Hin |]. unfold copied_from. cbn.
    repeat split. now symmetry.
  - assert (Hoid : In oid (map originId (r0 :: rest)))
      by (apply unique_In, Ho; subst oids; discriminate).
    exact Hoid.
  - assert (Hdid : In did (map destinationId (r0 :: rest)))
      by (apply unique_In, Hd; subst dids; discriminate).
    exact Hdid.
Qed.

Lemma synth_rows_Forall (P : DeliveryRecord -> Prop) :
  (forall i j date c, P (fst (synth_row tape r0 rest i j date c))) ->
  forall i js date c, Forall P (fst (synth_rows tape r0 rest i js date c)).
Proof.
  intros HP i js date. induction js as [| j js IH]; intros c; cbn [synth_rows].
  - constructor.
  - pose proof (HP i j date c) as H.
    destruct (synth_row tape r0 rest i j date c) as [row c1].
    specialize (IH c1).
    destruct (synth_rows tape r0 rest i js date c1) as [rows c2].
    cbn in *. now constructor.
Qed.

Lemma synth_days_Forall (P : DeliveryRecord -> Prop) :
  (forall i j date c, P (fst (synth_row tape r0 rest i j date c))) ->
  forall daily_vol range date c,
    Forall (Forall P) (synth_days tape r0 rest daily_vol range date c).
Proof.
  intros HP daily_vol range. induction range as [| i range IH]; intros date c.
  - constructor.
  - cbn [synth_days np_random_normal].
    set (n := Z.to_nat (Z.max 1 _)). set (d := date - 1 * day_seconds).
    pose proof (synth_rows_Forall P HP i (seq 0 n) d (S c)) as H.
    destruct (synth_rows tape r0 rest i (seq 0 n) d (S c)) as [rows c'].
    constructor; [exact H | apply IH].
Qed.

End SyntheticRows.

(** What [synthetic_batches] returns when it generates. *)
Lemma synthetic_batches_inv (tape : Tape) (records : list DeliveryRecord)
    (target_days : Z) (batches : list (list DeliveryRecord)) :
  synthetic_batches tape records target_days = inr batches ->
  batches = [] \/
  exists r0 rest vol,
    records = r0 :: rest /\
    current_span_of r0 rest < target_days /\
    batches = synth_days tape r0 rest vol
                (seq 0 (Z.to_nat (target_days - current_span_of r0 rest)))
                (earliest_date_of r0 rest) 0%nat.
Proof.
  unfold synthetic_batches. destruct records as [| r0 rest].
  - intros H. injection H as <-. now left.
  - destruct (target_days - current_span_of r0 rest <=? 0) eqn:E.
    + intros H. injection H as <-. now left.
    + destruct (daily_vol_of (r0 :: rest)) as [vol |]; [| discriminate].
      intros H. injection H as <-. right. exists r0, rest, vol.
      apply Z.leb_gt in E. repeat split. lia.
Qed.

(** X9: every synthetic record is copied from a real record of the same
    vehicle: it has that record's vehicle id, vehicle type, categories,
    distance and alpine flag; its origin and destination ids are ids that
    occur in the real data. *)
Theorem synthetic_records_copy_real_ones (tape : Tape)
    (records : list DeliveryRecord) (target_days : Z)
    (batches : list (list DeliveryRecord)) (s : DeliveryRecord) :
  synthetic_batches tape records target_days = inr batches ->
  In s (List.concat batches) ->
  (exists t, In t records /\ copied_from s t) /\
  In (originId s) (map originId records) /\
  In (destinationId s) (map destinationId records).
Proof.
  intros Hb Hs. apply synthetic_batches_inv in Hb.
  destruct Hb as [-> | [r0 [rest [vol [-> [_ ->]]]]]]; [destruct Hs |].
  apply in_concat in Hs. destruct Hs as [b [Hb Hsb]].
  pose proof (synth_days_Forall tape r0 rest
                (fun s => (exists t, In t (r0 :: rest) /\ copied_from s t) /\
                          In (originId s) (map originId (r0 :: rest)) /\
                          In (destinationId s) (map destinationId (r0 :: rest)))
                (synth_row_from_frame tape r0 rest) vol
                (seq 0 (Z.to_nat (target_days - current_span_of r0 rest)))
                (earliest_date_of r0 rest) 0%nat) as H.
  rewrite Forall_forall in H. specialize (H b Hb).
  rewrite Forall_forall in H. exact (H s Hsb).
Qed.

(** X9 on the first synthetic row of the ten-day sample. *)
Lemma synthetic_records_copy_real_ones_sample :
  (exists t, In t records_10_days /\ copied_from sample_synthetic_row t) /\
  In (originId sample_synthetic_row) (map originId records_10_days) /\
  In (destinationId sample_synthetic_row) (map destinationId records_10_days).
Proof.
  apply (synthetic_records_copy_real_ones sample_tape records_10_days 12
           sample_batches sample_synthetic_row).
  - vm_compute. reflexivity.
  - vm_compute. left. reflexivity.
Defined.

(** A synthetic record is dated a whole number of days before the
    earliest real delivery, within the shortfall. *)
Lemma synthetic_dates (tape : Tape)
    (r0 : DeliveryRecord) (rest : list DeliveryRecord) (target_days : Z)
    (batches : list (list DeliveryRecord)) (s : DeliveryRecord) :
  synthetic_batches tape (r0 :: rest) target_days = inr batches ->
  In s (List.concat batches) ->
  exists k, 1 <= k <= target_days - current_span_of r0 rest /\
            deliveryDate s = earliest_date_of r0 rest - k * day_seconds.
Proof.
  intros Hb Hs. apply synthetic_batches_inv in Hb.
  destruct Hb as [-> | [r0' [rest' [vol [E [Hlt ->]]]]]]; [destruct Hs |].
  injection E as <- <-.
  apply in_concat in Hs. destruct Hs as [b [Hb Hsb]].
  apply In_nth_error in Hb. destruct Hb as [k Hk].
  destruct (synth_days_spec tape r0 rest vol
              (seq 0 (Z.to_nat (target_days - current_span_of r0 rest)))
              (earliest_date_of r0 rest) 0%nat) as [Hlen Hspec].
  rewrite length_seq in Hlen.
  assert (Hklt : (k < Z.to_nat (target_days - current_span_of r0 rest))%nat).
  { rewrite <- Hlen. apply nth_error_Some. congruence. }
  destruct (Hspec k b Hk) as [_ Hf]. rewrite Forall_forall in Hf.
  specialize (Hf s Hsb).
  exists (Z.of_nat k + 1). split; [lia | exact Hf].
Qed.

(** X10: every synthetic record is dated a whole number [k] of days
    before the earliest real delivery, at the same time of day, with
    [1 <= k <= target_days - span]; so it is strictly earlier than every
    real record. *)
Theorem synthetic_records_precede_real_ones (tape : Tape)
    (r0 : DeliveryRecord) (rest : list DeliveryRecord) (target_days : Z)
    (batches : list (list DeliveryRecord)) (s : DeliveryRecord) :
  synthetic_batches tape (r0 :: rest) target_days = inr batches ->
  In s (List.concat batches) ->
  (exists k, 1 <= k <= target_days - current_span_of r0 rest /\
             deliveryDate s = earliest_date_of r0 rest - k * day_seconds) /\
  forall r, In r (r0 :: rest) -> deliveryDate s < deliveryDate r.
Proof.
  intros Hb Hs.
  destruct (synthetic_dates tape r0 rest target_days batches s Hb Hs)
    as [k [Hk Hd]].
  split; [exists k; split; assumption |].
  intros r Hr. rewrite Hd.
  pose proof (earliest_le_latest r0 rest r Hr). unfold day_seconds. lia.
Qed.

(** X10 on the first synthetic row of the ten-day sample. *)
Lemma synthetic_records_precede_real_ones_sample :
  (exists k, 1 <= k <= 12 - 10 /\
             deliveryDate sample_synthetic_row = 0 - k * day_seconds) /\
  forall r, In r records_10_days ->
            deliveryDate sample_synthetic_row < deliveryDate r.
Proof.
  apply (synthetic_records_precede_real_ones sample_tape
           (sample_record "d2" "V2" (10 * day_seconds + 3600))
           [sample_record "d1" "V1" 0] 12 sample_batches sample_synthetic_row).
  - vm_compute. reflexivity.
  - vm_compute. left. reflexivity.
Defined.

Lemma concat_length_ge {A} (l : list (list A)) :
  Forall (fun b => b <> []) l ->
  (List.length l <= List.length (List.concat l))%nat.
Proof.
  induction 1 as [| b r Hb Hr IH]; cbn; [lia |].
  rewrite length_app. destruct b; [congruence |]. cbn. lia.
Qed.

(** X11: on a non-empty frame the output has all the real records plus
    at least one synthetic record for each day of the shortfall. *)
Theorem augment_adds_at_least_one_record_per_day (tape : Tape)
    (records : list DeliveryRecord) (target_days : Z) :
  records <> [] ->
  exists out batches,
    generate_historical_data tape records target_days = inr out /\
    synthetic_batches tape records target_days = inr batches /\
    List.length out
      = (List.length (List.concat batches) + List.length records)%nat /\
    Z.of_nat (List.length records) + Z.max 0 (target_days - span records)
      <= Z.of_nat (List.length out).
Proof.
  intros Hne. destruct records as [| r0 rest]; [congruence |].
  destruct (Z_lt_le_dec (current_span_of r0 rest) target_days) as [Hlt | Hge].
  - destruct (generate_merge_path tape r0 rest target_days Hlt)
      as [batches [Hb [Hlen [Hg _]]]].
    eexists. exists batches. split; [exact Hg |]. split; [exact Hb |].
    assert (Hl : List.length
                   (sort_values_deliveryDate (List.concat batches ++ r0 :: rest)%list)
                 = (List.length (List.concat batches) + List.length (r0 :: rest))%nat).
    { rewrite <- (Permutation_length (sort_values_perm _)). apply length_app. }
    split; [exact Hl |]. rewrite Hl.
    assert (Hc : (List.length batches <= List.length (List.concat batches))%nat).
    { apply concat_length_ge. apply Forall_forall. intros b Hin.
      apply synthetic_batches_inv in Hb.
      destruct Hb as [-> | [r0' [rest' [vol [E [_ ->]]]]]]; [destruct Hin |].
      injection E as <- <-.
      apply In_nth_error in Hin. destruct Hin as [k Hk].
      destruct (synth_days_spec tape r0 rest vol
                  (seq 0 (Z.to_nat (target_days - current_span_of r0 rest)))
                  (earliest_date_of r0 rest) 0%nat) as [_ Hspec].
      apply (Hspec k b Hk). }
    cbn [span]. lia.
  - destruct (generate_noop_path tape (r0 :: rest) target_days Hge) as [Hg Hb].
    exists (r0 :: rest), []. split; [exact Hg |]. split; [exact Hb |].
    split; [reflexivity |]. cbn [span]. lia.
Qed.

(** X11 on the ten-day sample with a target of twelve days. *)
Lemma augment_adds_at_least_one_record_per_day_sample :
  exists out batches,
    generate_historical_data sample_tape records_10_days 12 = inr out /\
    synthetic_batches sample_tape records_10_days 12 = inr batches /\
    List.length out
      = (List.length (List.concat batches) + List.length records_10_days)%nat /\
    Z.of_nat (List.length records_10_days) + Z.max 0 (12 - span records_10_days)
      <= Z.of_nat (List.length out).
Proof.
  apply (augment_adds_at_least_one_record_per_day sample_tape records_10_days 12).
  discriminate.
Defined.

(** ** More on startup and the endpoints *)

Lemma lifespan_startup_frame (w : World) :
  lifespan w =
  match startup_frame w with
  | inl _ => initial_state
  | inr [] => initial_state
  | inr (r0 :: rest) =>
      train_reliability w (r0 :: rest)
        (train_forecaster w (r0 :: rest) col_totalCost "spend" "spend_history"
           (train_forecaster w (r0 :: rest) col_demand "demand" "demand_history"
              (mkAppState (models initial_state)
                 (mkDataContext (Some (latest_date_of r0 rest)) 0
                    (Z.of_nat (List.length (r0 :: rest)))))))
  end.
Proof. reflexivity. Qed.

(** X12: a startup that cannot fetch records - no [DATABASE_URL], a failing
    query, or an empty table - raises nothing and leaves the registry as
    it was: [health_check] then reports every model as not loaded and the
    dashboard answers 503. *)
Theorem lifespan_without_records (w : World) (dt : Now) :
  is_raise (DBFetcher_init (database_url w)) = true \/
  is_raise (query_deliveries w) = true \/
  query_deliveries w = inr [] ->
  lifespan w = initial_state /\
  health_check (lifespan w)
    = inr (mkHealthResponse "ok" false
             [("demand", false); ("spend", false); ("reliability", false)]) /\
  dashboard_reliability (lifespan w) dt
    = inl (HTTPException 503 "Model not ready").
Proof.
  intros H.
  assert (E : lifespan w = initial_state).
  { rewrite lifespan_startup_frame. unfold startup_frame.
    destruct H as [H | [H | H]].
    - destruct (DBFetcher_init (database_url w)); [reflexivity | discriminate].
    - destruct (DBFetcher_init (database_url w)); [reflexivity |].
      destruct (query_deliveries w); [reflexivity | discriminate].
    - destruct (DBFetcher_init (database_url w)); [reflexivity |].
      rewrite H. reflexivity. }
  rewrite E. repeat split.
Qed.

(** X12 without [DATABASE_URL]. *)
Lemma lifespan_without_database_url :
  lifespan world_no_database = initial_state /\
  health_check (lifespan world_no_database)
    = inr (mkHealthResponse "ok" false
             [("demand", false); ("spend", false); ("reliability", false)]) /\
  dashboard_reliability (lifespan world_no_database) sample_now
    = inl (HTTPException 503 "Model not ready").
Proof.
  apply (lifespan_without_records world_no_database sample_now).
  left. reflexivity.
Defined.

Lemma train_forecaster_cases (w : World) (full_df : list DeliveryRecord)
    (column : Column) (key history_key : string) (st : AppState) :
  train_forecaster w full_df column key history_key st = st \/
  exists series ts fit,
    prepare_arima_data full_df column = inr series /\
    run_train (statsmodels w) (ArimaModel_init (5, 1, 0)) series = (inr true, ts) /\
    model_fit (self ts) = Some fit /\
    endog (res_model fit) = series /\
    train_forecaster w full_df column key history_key st
    = mkAppState
        (dict_set history_key (VSeries series)
           (dict_set key (VArimaModel (self ts)) (models st)))
        (data_context st).
Proof.
  unfold train_forecaster.
  destruct full_df as [| r0 rest]; [left; reflexivity |].
  rewrite prepare_arima_data_nonempty.
  match goal with |- context [run_train _ _ ?s] => set (series := s) end.
  destruct (run_train (statsmodels w) (ArimaModel_init (5, 1, 0)) series)
    as [[e | [|]] ts] eqn:E; [now left | | now left].
  right.
  destruct (train_success_fit (statsmodels w) (ArimaModel_init (5, 1, 0))
              series series ts eq_refl E) as [fit [Hfit Hend]].
  exists series, ts, fit. repeat split; assumption.
Qed.

(** X13: a forecaster found in the registry after startup is trained:
    its [model_fit] is set, the series stored beside it under
    "demand_history" (respectively "spend_history") is the series it was
    fitted on, and [forecast] on it with [steps >= 1] returns rows dated
    from the day after that series' last date. *)
Theorem registered_forecaster_is_trained (w : World) (key : string)
    (m : ArimaModel) (steps : Z) :
  1 <= steps ->
  key = "demand" \/ key = "spend" ->
  dict_get key (models (lifespan w)) = Some (VArimaModel m) ->
  exists fit history df,
    model_fit m = Some fit /\
    dict_get (key ++ "_history") (models (lifespan w)) = Some (VSeries history) /\
    endog (res_model fit) = history /\
    forecast (statsmodels w) m steps = inr df /\
    forall i, (i < Z.to_nat steps)%nat ->
      nth_error (map f_date df) i = Some (last_date history + 1 + Z.of_nat i).
Proof.
  intros _ Hkey Hget. rewrite lifespan_startup_frame in *.
  destruct (startup_frame w) as [e | [| r0 rest]];
    [destruct Hkey as [-> | ->]; discriminate Hget
    | destruct Hkey as [-> | ->]; discriminate Hget |].
  set (st0 := mkAppState (models initial_state) _) in *.
  assert (Hfin : forall fit history,
            model_fit m = Some fit -> endog (res_model fit) = history ->
            exists df,
              forecast (statsmodels w) m steps = inr df /\
              forall i, (i < Z.to_nat steps)%nat ->
                nth_error (map f_date df) i
                = Some (last_date history + 1 + Z.of_nat i)).
  { intros fit history Hfit Hend.
    destruct (forecast_dates (statsmodels w) fit m steps Hfit) as [df [Hf [_ Hd]]].
    exists df. split; [exact Hf |]. intros i Hi. rewrite <- Hend. now apply Hd. }
  unfold train_reliability in *.
  destruct (train_forecaster_cases w (r0 :: rest) col_demand
              "demand" "demand_history" st0)
    as [E1 | [s1 [ts1 [fit1 [_ [_ [Hfit1 [Hend1 E1]]]]]]]];
    rewrite E1 in *; clear E1;
  match goal with
  | |- context [train_forecaster w (r0 :: rest) col_totalCost ?k ?h ?st] =>
      destruct (train_forecaster_cases w (r0 :: rest) col_totalCost k h st)
        as [E2 | [s2 [ts2 [fit2 [_ [_ [Hfit2 [Hend2 E2]]]]]]]];
      rewrite E2 in *; clear E2
  end;
  destruct (sklearn_fit w (r0 :: rest)) as [e5 | [clf acc]];
  destruct Hkey as [-> | ->]; cbn in Hget; try discriminate Hget;
  injection Hget as <-;
  try (destruct (Hfin fit1 s1 Hfit1 Hend1) as [df [Hf Hd]];
       exists fit1, s1, df; repeat split; assumption);
  try (destruct (Hfin fit2 s2 Hfit2 Hend2) as [df [Hf Hd]];
       exists fit2, s2, df; repeat split; assumption).
Qed.

(** X13 on the demand forecaster of the fully trained startup, a week
    ahead. *)
Lemma registered_forecaster_is_trained_demand :
  exists fit history df,
    model_fit registered_demand_model = Some fit /\
    dict_get ("demand" ++ "_history") (models (lifespan world_all_trained))
      = Some (VSeries history) /\
    endog (res_model fit) = history /\
    forecast (statsmodels world_all_trained) registered_demand_model 7 = inr df /\
    forall i, (i < Z.to_nat 7)%nat ->
      nth_error (map f_date df) i = Some (last_date history + 1 + Z.of_nat i).
Proof.
  apply (registered_forecaster_is_trained world_all_trained "demand"
           registered_demand_model 7).
  - lia.
  - left. reflexivity.
  - vm_compute. reflexivity.
Defined.

Lemma train_forecaster_data_context (w : World) (full_df : list DeliveryRecord)
    (column : Column) (key history_key : string) (st : AppState) :
  data_context (train_forecaster w full_df column key history_key st)
  = data_context st.
Proof.
  destruct (train_forecaster_cases w full_df column key history_key st)
    as [-> | [s [ts [fit [_ [_ [_ [_ ->]]]]]]]]; reflexivity.
Qed.

(** The earliest and latest dates of a collection bounded by two of its
    own dates. *)
Lemma extremes_between (a : DeliveryRecord) (l : list DeliveryRecord) (lo hi : Z) :
  In lo (map deliveryDate (a :: l)) ->
  In hi (map deliveryDate (a :: l)) ->
  (forall r, In r (a :: l) -> lo <= deliveryDate r <= hi) ->
  earliest_date_of a l = lo /\ latest_date_of a l = hi.
Proof.
  intros Hlo Hhi Hall.
  pose proof (list_min_in (deliveryDate a) (map deliveryDate l)) as Hmin.
  pose proof (list_max_in (deliveryDate a) (map deliveryDate l)) as Hmax.
  change (In (earliest_date_of a l) (map deliveryDate (a :: l))) in Hmin.
  change (In (latest_date_of a l) (map deliveryDate (a :: l))) in Hmax.
  apply in_map_iff in Hmin. destruct Hmin as [r1 [E1 Hr1]].
  apply in_map_iff in Hmax. destruct Hmax as [r2 [E2 Hr2]].
  pose proof (list_min_le (deliveryDate a) (map deliveryDate l) lo Hlo).
  pose proof (list_max_ge (deliveryDate a) (map deliveryDate l) hi Hhi).
  pose proof (Hall r1 Hr1). pose proof (Hall r2 Hr2).
  unfold earliest_date_of, latest_date_of in *. lia.
Qed.

(** Augmentation keeps the latest date. *)
Lemma generate_historical_data_latest (tape : Tape) (d0 : DeliveryRecord)
    (drest : list DeliveryRecord) (target_days : Z) :
  exists r0 rest,
    generate_historical_data tape (d0 :: drest) target_days = inr (r0 :: rest) /\
    latest_date_of r0 rest = latest_date_of d0 drest /\
    target_days <= span (r0 :: rest) /\
    (List.length (d0 :: drest) <= List.length (r0 :: rest))%nat.
Proof.
  destruct (Z_lt_le_dec (current_span_of d0 drest) target_days) as [Hlt | Hge].
  - destruct (generate_merge_path tape d0 drest target_days Hlt)
      as [batches [Hb [_ [Hg Hspan]]]].
    set (out := sort_values_deliveryDate (List.concat batches ++ d0 :: drest)%list) in *.
    assert (Hin : forall r, In r out <-> In r (List.concat batches) \/ In r (d0 :: drest)).
    { intros r. rewrite <- in_app_iff. split; apply Permutation_in;
        [apply Permutation_sym |]; apply sort_values_perm. }
    assert (Hlen : List.length out
                   = (List.length (List.concat batches) + List.length (d0 :: drest))%nat).
    { unfold out. rewrite <- (Permutation_length (sort_values_perm _)).
      apply length_app. }
    destruct out as [| r0 rest] eqn:Eout; [cbn in Hlen; lia |].
    exists r0, rest. split; [exact Hg |]. split; [| split; [lia | lia]].
    pose proof (earliest_le_latest d0 drest) as Hdf.
    pose proof (earliest_le_latest r0 rest) as Hout.
    apply Z.le_antisymm.
    + pose proof (list_max_in (deliveryDate r0) (map deliveryDate rest)) as Hm.
      change (In (latest_date_of r0 rest) (map deliveryDate (r0 :: rest))) in Hm.
      apply in_map_iff in Hm. destruct Hm as [r [<- Hr]].
      apply Hin in Hr. destruct Hr as [Hr | Hr].
      * destruct (synthetic_dates tape d0 drest target_days batches r Hb Hr)
          as [k [Hk Hd]].
        pose proof (Hdf d0 (or_introl eq_refl)). rewrite Hd.
        unfold day_seconds. lia.
      * apply Hdf, Hr.
    + pose proof (list_max_in (deliveryDate d0) (map deliveryDate drest)) as Hm.
      change (In (latest_date_of d0 drest) (map deliveryDate (d0 :: drest))) in Hm.
      apply in_map_iff in Hm. destruct Hm as [r [<- Hr]].
      apply Hout, Hin. now right.
  - destruct (generate_noop_path tape (d0 :: drest) target_days Hge) as [Hg _].
    exists d0, drest. split; [exact Hg |]. split; [reflexivity |].
    split; [exact Hge | lia].
Qed.

(** X14: when the database answers with at least one record, startup
    trains on a frame that holds at least those records and spans at least
    365 days; [total_records] is the size of that frame and [latest_date]
    is the latest date of the fetched records (the synthetic ones are all
    older). *)
Theorem lifespan_data_context (w : World) (d0 : DeliveryRecord)
    (drest : list DeliveryRecord) :
  is_raise (DBFetcher_init (database_url w)) = false ->
  query_deliveries w = inr (d0 :: drest) ->
  exists full_df,
    startup_frame w = inr full_df /\
    365 <= span full_df /\
    (List.length (d0 :: drest) <= List.length full_df)%nat /\
    total_records (data_context (lifespan w)) = Z.of_nat (List.length full_df) /\
    latest_date (data_context (lifespan w)) = Some (latest_date_of d0 drest).
Proof.
  intros Hdb Hq.
  destruct (generate_historical_data_latest (random_tape w) d0 drest 365)
    as [r0 [rest [Hg [Hlat [Hspan Hlen]]]]].
  assert (Hsf : startup_frame w = inr (r0 :: rest)).
  { unfold startup_frame.
    destruct (DBFetcher_init (database_url w)); [discriminate |].
    cbn [rbind]. rewrite Hq. cbn [rbind]. exact Hg. }
  exists (r0 :: rest). split; [exact Hsf |]. split; [exact Hspan |].
  split; [exact Hlen |].
  rewrite lifespan_startup_frame, Hsf. unfold train_reliability.
  destruct (sklearn_fit w (r0 :: rest)) as [e | [clf acc]];
    cbn [data_context total_records latest_date];
    rewrite !train_forecaster_data_context; cbn; rewrite Hlat; split; reflexivity.
Qed.

(** X14 on the startup in which everything trains. *)
Lemma lifespan_data_context_all_trained :
  exists full_df,
    startup_frame world_all_trained = inr full_df /\
    365 <= span full_df /\
    (List.length records_400_days <= List.length full_df)%nat /\
    total_records (data_context (lifespan world_all_trained))
      = Z.of_nat (List.length full_df) /\
    latest_date (data_context (lifespan world_all_trained))
      = Some (latest_date_of (sample_record "d1" "V1" 0)
                             [sample_record "d2" "V2" (400 * day_seconds)]).
Proof.
  apply (lifespan_data_context world_all_trained
           (sample_record "d1" "V1" 0)
           [sample_record "d2" "V2" (400 * day_seconds)]).
  - reflexivity.
  - reflexivity.
Defined.

(** X15: [model_performance] returns after every startup, the fully
    trained one included: it reads the two forecasters by key and never
    looks at the history series.  A forecaster that is not registered
    counts with an information criterion of 0. *)
Theorem model_performance_after_startup (w : World) :
  exists p,
    model_performance (lifespan w) = inr p /\
    data_points p = total_records (data_context (lifespan w)) /\
    perf_rf_accuracy p = rf_accuracy (data_context (lifespan w)) /\
    (is_registered "demand" (lifespan w) = false -> arima_demand_aic p = 0%Q) /\
    (is_registered "spend" (lifespan w) = false -> arima_spend_aic p = 0%Q).
Proof.
  rewrite lifespan_startup_frame.
  destruct (startup_frame w) as [e | [| r0 rest]];
    [eexists; repeat split; reflexivity
    | eexists; repeat split; reflexivity |].
  unfold train_forecaster, train_reliability.
  destruct (prepare_arima_data (r0 :: rest) col_demand) as [e1 | s1];
    destruct (prepare_arima_data (r0 :: rest) col_totalCost) as [e2 | s2];
    try destruct (run_train (statsmodels w) (ArimaModel_init (5, 1, 0)) s1)
      as [[e3 | [|]] ts1];
    try destruct (run_train (statsmodels w) (ArimaModel_init (5, 1, 0)) s2)
      as [[e4 | [|]] ts2];
    destruct (sklearn_fit w (r0 :: rest)) as [e5 | [clf acc]];
    unfold model_performance, aic_or_zero;
    cbn [models data_context dict_get dict_set initial_state String.eqb
         Ascii.eqb Bool.eqb truth rbind];
    try destruct (model_fit (self ts1));
    try destruct (model_fit (self ts2));
    eexists; (split; [reflexivity |]); repeat split; try reflexivity;
    intros H; try reflexivity; discriminate H.
Qed.

(** X16: after every startup [predict_reliability] answers according to
    the training of the forest alone.  When startup obtained a non-empty
    frame and scikit-learn fitted the forest on it, the answer is the
    accuracy of that fit and the size of the frame, whatever the request
    body holds; when startup obtained no frame or the fit raised, the
    answer is 503 "Model not ready". *)
Theorem predict_reliability_after_startup {Item : Type} (w : World)
    (items : list Item) :
  predict_reliability (lifespan w) items
  = match startup_frame w with
    | inr (r0 :: rest) =>
        match sklearn_fit w (r0 :: rest) with
        | inr (_, fitted_accuracy) =>
            inr (mkReliabilityInfo fitted_accuracy
                                   (Z.of_nat (List.length (r0 :: rest))))
        | inl _ => inl (HTTPException 503 "Model not ready")
        end
    | _ => inl (HTTPException 503 "Model not ready")
    end.
Proof.
  rewrite lifespan_startup_frame.
  destruct (startup_frame w) as [e | [| r0 rest]]; [reflexivity | reflexivity |].
  unfold train_forecaster, train_reliability.
  destruct (prepare_arima_data (r0 :: rest) col_demand) as [e1 | s1];
    destruct (prepare_arima_data (r0 :: rest) col_totalCost) as [e2 | s2];
    try destruct (run_train (statsmodels w) (ArimaModel_init (5, 1, 0)) s1)
      as [[e3 | [|]] ts1];
    try destruct (run_train (statsmodels w) (ArimaModel_init (5, 1, 0)) s2)
      as [[e4 | [|]] ts2];
    destruct (sklearn_fit w (r0 :: rest)) as [e5 | [clf acc]];
    reflexivity.
Qed.

(** ** More on the reliability dashboard *)

Lemma round_half_even_bounds (q : Q) (n : Z) :
  (0 <= q)%Q -> (q <= inject_Z n)%Q -> 0 <= round_half_even q <= n.
Proof.
  intros H0 Hn. unfold round_half_even. cbv zeta.
  pose proof (Qfloor_le q) as Hfl. pose proof (Qlt_floor q) as Hlt.
  remember (Qfloor q) as f eqn:Ef. clear Ef.
  assert (Hf0 : 0 <= f).
  { assert (H : (inject_Z 0 < inject_Z (f + 1))%Q)
      by (eapply Qle_lt_trans; [exact H0 | exact Hlt]).
    rewrite <- Zlt_Qlt in H. lia. }
  assert (Hfn : f <= n).
  { rewrite Zle_Qle. eapply Qle_trans; [exact Hfl | exact Hn]. }
  assert (Htop : f = n -> Qcompare (q - inject_Z f) (1 # 2) = Lt).
  { intros ->. apply Qlt_alt.
    apply Qle_lt_trans with (y := 0%Q); [| reflexivity].
    unfold Qminus. rewrite <- (Qplus_opp_r (inject_Z n)).
    apply Qplus_le_l. exact Hn. }
  destruct (Qcompare (q - inject_Z f) (1 # 2)) eqn:E.
  - destruct (Z.even f); [lia |].
    destruct (Z.eq_dec f n) as [Heq | Hne]; [| lia].
    discriminate (Htop Heq).
  - lia.
  - destruct (Z.eq_dec f n) as [Heq | Hne]; [| lia].
    discriminate (Htop Heq).
Qed.

Lemma py_round1_percent (p : Q) :
  (0 <= p)%Q -> (p <= 1)%Q ->
  (0 <= py_round1 (p * 100))%Q /\ (py_round1 (p * 100) <= 100)%Q.
Proof.
  intros H0 H1. unfold py_round1. rewrite Qred_correct.
  destruct (round_half_even_bounds (p * 100 * 10) 1000) as [Hr0 Hr1].
  - apply Qmult_le_0_compat; [apply Qmult_le_0_compat |]; [exact H0 | |]; discriminate.
  - setoid_replace (inject_Z 1000) with (1 * 100 * 10)%Q by reflexivity.
    apply Qmult_le_compat_r; [| discriminate].
    apply Qmult_le_compat_r; [exact H1 | discriminate].
  - set (r := round_half_even (p * 100 * 10)) in *.
    rewrite Zle_Qle in Hr0, Hr1. split.
    + apply Qle_shift_div_l; [reflexivity |]. rewrite Qmult_0_l. exact Hr0.
    + apply Qle_shift_div_r; [reflexivity |].
      setoid_replace (100 * 10)%Q with (inject_Z 1000) by reflexivity. exact Hr1.
Qed.

(** X17: whenever the forest's on-time probabilities lie in [0, 1], the
    score of a dashboard entry lies in [0, 100], the substituted default
    included. *)
Theorem dashboard_score_in_range (m : SupplierReliabilityModel) (dt : Now)
    (s : Scenario) :
  (forall p, predict_on_time m (features_of s dt) = inr p ->
             (0 <= p)%Q /\ (p <= 1)%Q) ->
  (0 <= score (dashboard_entry m dt s))%Q /\
  (score (dashboard_entry m dt s) <= 100)%Q.
Proof.
  intros H. unfold dashboard_entry. cbn [score].
  assert (Hp : (0 <= prob_or_default m (features_of s dt))%Q /\
               (prob_or_default m (features_of s dt) <= 1)%Q).
  { unfold prob_or_default.
    destruct (predict_on_time m (features_of s dt)) as [e | p].
    - split; discriminate.
    - now apply H. }
  destruct Hp. now apply py_round1_percent.
Qed.

(** X17 on the first scenario with a forest predicting 0.85. *)
Lemma dashboard_score_in_range_first_scenario :
  (0 <= score (dashboard_entry
                 (mkSupplierReliabilityModel (classifier_expecting 7 (85 # 100))
                                             rf_feature_names)
                 sample_now
                 (mkScenario "Vienna Hub -> Salzburg (Mountain)" 1 320 0)))%Q /\
  (score (dashboard_entry
            (mkSupplierReliabilityModel (classifier_expecting 7 (85 # 100))
                                        rf_feature_names)
            sample_now
            (mkScenario "Vienna Hub -> Salzburg (Mountain)" 1 320 0)) <= 100)%Q.
Proof.
  apply (dashboard_score_in_range
           (mkSupplierReliabilityModel (classifier_expecting 7 (85 # 100))
                                       rf_feature_names)
           sample_now
           (mkScenario "Vienna Hub -> Salzburg (Mountain)" 1 320 0)).
  intros p Hp. vm_compute in Hp. injection Hp as <-. split; discriminate.
Defined.

(** X18: with a forest in the registry the dashboard has one entry for
    each of the five scenarios, and the entries are in ascending order of
    score. *)
Theorem dashboard_reliability_sorted (st : AppState) (dt : Now)
    (m : SupplierReliabilityModel) :
  dict_get "reliability" (models st) = Some (VReliability m) ->
  exists entries,
    dashboard_reliability st dt = inr entries /\
    Sorted score_le entries /\
    Permutation (map (dashboard_entry m dt) scenarios) entries /\
    List.length entries = 5%nat.
Proof.
  intros Hm. unfold dashboard_reliability. rewrite Hm.
  eexists. split; [reflexivity |].
  pose proof (sort_by_perm (fun a b => Qle_bool (score a) (score b))
                (map (dashboard_entry m dt) scenarios)) as Hp.
  split; [| split; [exact Hp |]].
  - apply sort_by_Sorted; unfold score_le; intros a b H.
    + now apply Qle_bool_iff.
    + apply Qlt_le_weak, Qnot_le_lt. intros Hle.
      apply Qle_bool_iff in Hle. congruence.
  - rewrite <- (Permutation_length Hp). reflexivity.
Qed.

(** X18 after the startup in which everything trains. *)
Lemma dashboard_reliability_sorted_all_trained :
  exists entries,
    dashboard_reliability (lifespan world_all_trained) sample_now = inr entries /\
    Sorted score_le entries /\
    Permutation
      (map (dashboard_entry
              (mkSupplierReliabilityModel (classifier_expecting 7 (85 # 100))
                                          rf_feature_names)
              sample_now) scenarios) entries /\
    List.length entries = 5%nat.
Proof.
  apply (dashboard_reliability_sorted (lifespan world_all_trained) sample_now).
  vm_compute. reflexivity.
Defined.

Lemma append_assoc (a b c : string) : ((a ++ b) ++ c = a ++ (b ++ c))%string.
Proof. induction a as [| x a IH]; cbn; [reflexivity | now rewrite IH]. Qed.

(** X19: for a probability below the double that the literal [0.6]
    denotes, on an alpine route longer than 300 km in December, January or
    February, the narrative states a percentage and the band "High", then
    the alpine, the long-haul and the winter clause in that order, and
    ends with the 24-hour recommendation. *)
Theorem generate_risk_narrative_high_all_clauses
    (row_data : RowData) (prob_on_time : Q) :
  (prob_on_time < double_0_6)%Q ->
  is_alpine_int row_data = 1 ->
  (300 < rd_distance row_data)%Q ->
  In (month row_data) [12; 1; 2] ->
  exists percent : Z,
    generate_risk_narrative row_data prob_on_time
    = ("Reliability Score: " ++ dec percent
         ++ "%. Risk Level: High. Major delays likely. Alpine route complexity is a primary risk factor. Long-haul distance increases vulnerability to traffic. Winter conditions may exacerbate delays. Recommendation: buffer lead time by 24h.")%string.
Proof.
  intros Hp Ha Hd Hm. exists (py_int (prob_on_time * 100)).
  unfold generate_risk_narrative, risk_level_of.
  assert (Hp' : (prob_on_time < 6 # 10)%Q).
  { eapply Qlt_trans; [exact Hp | reflexivity]. }
  apply Qltb_lt in Hp'. rewrite Hp'. cbn [String.eqb Ascii.eqb Bool.eqb].
  rewrite Ha. cbn [Z.eqb Pos.eqb].
  apply Qltb_lt in Hd. rewrite Hd.
  assert (Hw : existsb (Z.eqb (month row_data)) [12; 1; 2] = true).
  { apply existsb_exists. exists (month row_data). split; [exact Hm | apply Z.eqb_refl]. }
  rewrite Hw. rewrite !append_assoc. reflexivity.
Qed.

(** X19 at Scenario D: probability 0.55, alpine, 350 km, January. *)
Lemma generate_risk_narrative_scenario_D :
  exists percent : Z,
    generate_risk_narrative (mkRowData 1 350 1 2) (55 # 100)
    = ("Reliability Score: " ++ dec percent
         ++ "%. Risk Level: High. Major delays likely. Alpine route complexity is a primary risk factor. Long-haul distance increases vulnerability to traffic. Winter conditions may exacerbate delays. Recommendation: buffer lead time by 24h.")%string.
Proof.
  apply (generate_risk_narrative_high_all_clauses (mkRowData 1 350 1 2) (55 # 100)).
  - reflexivity.
  - reflexivity.
  - reflexivity.
  - right. left. reflexivity.
Defined.

(** ** The feature matrix *)

Lemma month_day_range (d : Z) :
  1 <= fst (month_day d) <= 12 /\ 1 <= snd (month_day d) <= 31.
Proof.
  unfold month_day. cbv zeta. cbn [fst snd].
  set (z := d + 719468).
  set (era := z / 146097).
  set (doe := z - era * 146097).
  assert (Hdoe : 0 <= doe <= 146096).
  { subst doe era. pose proof (Z.mod_pos_bound z 146097 eq_refl) as H.
    rewrite Z.mod_eq in H by discriminate. lia. }
  clearbody doe. clear z era.
  set (yoe := (doe - doe / 1460 + doe / 36524 - doe / 146096) / 365).
  assert (Hyoe : 0 <= yoe <= 399).
  { subst yoe. Z.div_mod_to_equations. lia. }
  set (doy := doe - (365 * yoe + yoe / 4 - yoe / 100)).
  assert (Hdoy : 0 <= doy <= 365).
  { subst doy yoe. Z.div_mod_to_equations. lia. }
  clearbody doy.
  set (mp := (5 * doy + 2) / 153).
  assert (Hmp : 0 <= mp <= 11) by (subst mp; Z.div_mod_to_equations; lia).
  split.
  - destruct (mp <? 10) eqn:E; [apply Z.ltb_lt in E | apply Z.ltb_ge in E]; lia.
  - subst mp. Z.div_mod_to_equations. lia.
Qed.

Lemma index_of_In (x : string) (l : list string) :
  In x l ->
  0 <= index_of x l < Z.of_nat (List.length l) /\
  nth_error l (Z.to_nat (index_of x l)) = Some x.
Proof.
  induction l as [| y r IH]; [intros [] |].
  intros Hin. cbn [index_of List.length].
  destruct (String.eqb_spec x y) as [-> | Hne].
  - split; [lia | reflexivity].
  - destruct Hin as [-> | Hin]; [congruence |].
    destruct (IH Hin) as [Hb Hn]. cbv zeta.
    destruct (index_of x r <? 0) eqn:E; [apply Z.ltb_lt in E; lia |].
    split; [lia |].
    replace (Z.to_nat (index_of x r + 1)) with (S (Z.to_nat (index_of x r))) by lia.
    exact Hn.
Qed.

Lemma categories_In (values : list string) (v : string) :
  In v (categories values) <-> In v values.
Proof.
  unfold categories. split; intros H.
  - apply unique_In. eapply Permutation_in;
      [apply Permutation_sym, sort_by_perm | exact H].
  - eapply Permutation_in; [apply sort_by_perm | apply unique_In; exact H].
Qed.

(** The codes of a column are dense and tell its values apart. *)
Lemma cat_code_spec (values : list string) (u v : string) :
  In u values -> In v values ->
  0 <= cat_code values u < Z.of_nat (List.length (unique values)) /\
  (cat_code values u = cat_code values v <-> u = v).
Proof.
  intros Hu Hv. unfold cat_code.
  apply categories_In in Hu. apply categories_In in Hv.
  destruct (index_of_In u _ Hu) as [Hbu Hnu].
  destruct (index_of_In v _ Hv) as [Hbv Hnv].
  assert (Hlen : List.length (categories values) = List.length (unique values)).
  { unfold categories. symmetry. apply Permutation_length, sort_by_perm. }
  rewrite Hlen in Hbu. split; [exact Hbu |].
  split; [| now intros ->].
  intros E. rewrite E in Hnu. congruence.
Qed.

(** X20: on a non-empty frame [prepare_rf_data] returns one feature row,
    one label and one identifier triple per record, in the order of the
    records.  The label is 0 for a record with overtime and 1 otherwise;
    the alpine flag is 0 or 1, the day of week lies in 0..6 and the month
    in 1..12; the vehicle and origin codes are dense (at least 0, below
    the number of distinct ids of the frame) and two records get the same code exactly when they have the
    same id. *)
Theorem prepare_rf_data_features (r0 : DeliveryRecord)
    (rest : list DeliveryRecord) :
  exists X y identifiers,
    prepare_rf_data (r0 :: rest) = inr (X, y, identifiers) /\
    List.length X = List.length (r0 :: rest) /\
    List.length y = List.length (r0 :: rest) /\
    List.length identifiers = List.length (r0 :: rest) /\
    forall i r, nth_error (r0 :: rest) i = Some r ->
      exists row,
        nth_error X i = Some row /\
        nth_error y i = Some (if hasOvertime r then 0 else 1) /\
        nth_error identifiers i = Some (record_id r, vehicleId r, originId r) /\
        x_distance row = distance r /\ x_demand row = demand r /\
        x_is_alpine_int row = (if isAlpine r then 1 else 0) /\
        0 <= x_day_of_week row <= 6 /\
        1 <= x_month row <= 12 /\
        0 <= x_vehicle_encoded row
          < Z.of_nat (List.length (unique (map vehicleId (r0 :: rest)))) /\
        0 <= x_origin_encoded row
          < Z.of_nat (List.length (unique (map originId (r0 :: rest)))) /\
        forall j r' row',
          nth_error (r0 :: rest) j = Some r' -> nth_error X j = Some row' ->
          (x_vehicle_encoded row = x_vehicle_encoded row'
           <-> vehicleId r = vehicleId r') /\
          (x_origin_encoded row = x_origin_encoded row'
           <-> originId r = originId r').
Proof.
  set (df := r0 :: rest).
  exists (map (feature_row df) df),
         (map (fun r => if hasOvertime r then 0 else 1) df),
         (map (fun r => (record_id r, vehicleId r, originId r)) df).
  split; [reflexivity |]. rewrite !length_map.
  repeat (split; [reflexivity |]).
  intros i r Hi. exists (feature_row df r).
  rewrite !nth_error_map, Hi. cbn [option_map].
  repeat (split; [reflexivity |]).
  assert (Hr : In r df) by (eapply nth_error_In; exact Hi).
  assert (Hvid : forall x, In x df -> In (vehicleId x) (map vehicleId df))
    by (intros x Hx; now apply in_map).
  assert (Hoid : forall x, In x df -> In (originId x) (map originId df))
    by (intros x Hx; now apply in_map).
  cbn [feature_row x_day_of_week x_month x_vehicle_encoded x_origin_encoded].
  split; [unfold dayofweek; pose proof (Z.mod_pos_bound (date_of (deliveryDate r) + 3) 7 eq_refl); lia |].
  split; [apply month_day_range |].
  split; [apply (cat_code_spec _ _ _ (Hvid r Hr) (Hvid r Hr)) |].
  split; [apply (cat_code_spec _ _ _ (Hoid r Hr) (Hoid r Hr)) |].
  intros j r' row' Hj Hrow'. rewrite nth_error_map, Hj in Hrow'.
  injection Hrow' as <-.
  assert (Hr' : In r' df) by (eapply nth_error_In; exact Hj).
  cbn [feature_row x_vehicle_encoded x_origin_encoded].
  split.
  - apply (cat_code_spec _ _ _ (Hvid r Hr) (Hvid r' Hr')).
  - apply (cat_code_spec _ _ _ (Hoid r Hr) (Hoid r' Hr')).
Qed.

(** ** The retry policy of [train], on the series it applies to *)

Lemma ensure_freq_daily (series : Series) :
  s_freq series = true \/ NoDup (s_index series) ->
  exists s', ensure_freq series = inr s' /\
             (s_freq series = true -> s' = series).
Proof.
  intros H. unfold ensure_freq.
  destruct (s_freq series) eqn:Ef.
  - exists series. split; [reflexivity | reflexivity].
  - destruct H as [H | H]; [discriminate |].
    unfold asfreq_D_fillna0.
    destruct (s_index series) as [| d0 ds] eqn:Ei.
    + eexists. split; [reflexivity | discriminate].
    + rewrite (has_dup_false _ H). eexists. split; [reflexivity | discriminate].
Qed.

(** C7, as the code has it: for every series that carries the daily
    frequency or whose date labels are distinct, [train] makes the series
    daily without raising and tries the primary order; when that attempt
    fails it tries the fallback order (1,1,0), once; when that fails too
    it returns [False] and leaves [model_fit] unset.  In every case the
    result is a boolean: no fitting exception leaves [train]. *)
Theorem train_retry_policy_daily (sm : Statsmodels) (m : ArimaModel)
    (series : Series) :
  s_freq series = true \/ NoDup (s_index series) ->
  exists (s' : Series) (b : bool) (st : TrainState),
    ensure_freq series = inr s' /\
    (s_freq series = true -> s' = series) /\
    run_train sm m series = (inr b, st) /\
    match fit_outcome sm s' (order m) with
    | inr _ => b = true /\ attempts st = [order m]
    | inl _ =>
        attempts st = [order m; fallback_order] /\
        match fit_outcome sm s' fallback_order with
        | inr _ => b = true
        | inl _ => b = false /\ model_fit (self st) = None
        end
    end.
Proof.
  intros H. destruct (ensure_freq_daily series H) as [s' [Hs Hsame]].
  exists s'. rewrite run_train_unfold, Hs.
  destruct (fit_outcome sm s' (order m)) as [e1 | r1].
  - destruct (fit_outcome sm s' fallback_order) as [e2 | r2];
      eexists; eexists; (split; [reflexivity |]); (split; [exact Hsame |]);
      (split; [reflexivity |]); cbn; auto.
  - eexists; eexists; (split; [reflexivity |]); (split; [exact Hsame |]);
      (split; [reflexivity |]); cbn; auto.
Qed.

(** C7 on sixty days of 5 with a statsmodels that converges for the
    fallback order only. *)
Lemma train_retry_policy_daily_fallback :
  exists (s' : Series) (b : bool) (st : TrainState),
    ensure_freq (constant_series 5 60) = inr s' /\
    (s_freq (constant_series 5 60) = true -> s' = constant_series 5 60) /\
    run_train statsmodels_fallback_only (ArimaModel_init (5, 1, 0))
              (constant_series 5 60) = (inr b, st) /\
    match fit_outcome statsmodels_fallback_only s'
            (order (ArimaModel_init (5, 1, 0))) with
    | inr _ => b = true /\ attempts st = [order (ArimaModel_init (5, 1, 0))]
    | inl _ =>
        attempts st = [order (ArimaModel_init (5, 1, 0)); fallback_order] /\
        match fit_outcome statsmodels_fallback_only s' fallback_order with
        | inr _ => b = true
        | inl _ => b = false /\ model_fit (self st) = None
        end
    end.
Proof.
  apply (train_retry_policy_daily statsmodels_fallback_only
           (ArimaModel_init (5, 1, 0)) (constant_series 5 60)).
  left. reflexivity.
Defined.

(** C7: on a series without frequency in which a date occurs twice,
    [train] raises the [ValueError] of [asfreq('D')]; it attempts no fit
    and returns no boolean. *)
Lemma train_raises_on_duplicate_dates :
  run_train statsmodels_ok (ArimaModel_init (5, 1, 0)) series_duplicate_day
  = (inl (ValueError "cannot reindex on an axis with duplicate labels"),
     mkTrainState (ArimaModel_init (5, 1, 0)) []).
Proof. reflexivity. Qed.

(** ** The order of the augmentor's output *)


(** ** The forecast endpoints *)

Lemma format_rows_timestamp_labels (start_date : Z) (r : FRow) (t : list FRow) :
  format_rows start_date (iterrows (r :: t))
  = inl (TypeError "Invalid type <class 'pandas._libs.tslibs.timestamps.Timestamp'>. Must be int or float.").
Proof. reflexivity. Qed.

(** With a trained forecaster, its history and a latest date in the
    state, the endpoint answers 500 for every horizon of at least one
    day: the loop over the forecast stops at its first row. *)
Lemma forecast_endpoint_trained (key history_key metric_name metric : string)
    (sm : Statsmodels) (st : AppState) (m : ArimaModel) (fit : ARIMAResults)
    (history : Series) (t0 : Z) (days : Z) :
  dict_get key (models st) = Some (VArimaModel m) ->
  model_fit m = Some fit ->
  dict_get history_key (models st) = Some (VSeries history) ->
  latest_date (data_context st) = Some t0 ->
  1 <= days ->
  forecast_endpoint key history_key metric_name metric sm st days
  = inl (HTTPException 500
           "Invalid type <class 'pandas._libs.tslibs.timestamps.Timestamp'>. Must be int or float.").
Proof.
  intros Hm Hfit Hh Ht Hd. unfold forecast_endpoint.
  rewrite Hm. cbn [truth rbind negb]. rewrite Hfit, Hh, Ht.
  destruct (forecast_dates sm fit m days Hfit) as [df [Hf [Hlen _]]].
  rewrite Hf. cbn [rbind].
  destruct df as [| r t]; [cbn in Hlen; lia |].
  destruct (generate_insight_nonempty history r t metric_name) as [text ->].
  cbn [rbind]. rewrite format_rows_timestamp_labels. reflexivity.
Qed.

(** After every startup [forecast_demand] with [days >= 1] answers 503
    when no demand forecaster is registered and 500 when one is: it
    returns a forecast in no case. *)
Lemma forecast_demand_after_startup (w : World) (days : Z) :
  1 <= days ->
  forecast_demand (statsmodels w) (lifespan w) days
  = if is_registered "demand" (lifespan w)
    then inl (HTTPException 500
                "Invalid type <class 'pandas._libs.tslibs.timestamps.Timestamp'>. Must be int or float.")
    else inl (HTTPException 503 "Model not ready").
Proof.
  intros Hd. unfold forecast_demand. rewrite lifespan_startup_frame.
  destruct (startup_frame w) as [e | [| r0 rest]]; [reflexivity | reflexivity |].
  set (st0 := mkAppState (models initial_state) _).
  unfold train_reliability.
  destruct (train_forecaster_cases w (r0 :: rest) col_demand
              "demand" "demand_history" st0)
    as [E1 | [s1 [ts1 [fit1 [_ [_ [Hfit1 [_ E1]]]]]]]];
    rewrite E1; clear E1;
  match goal with
  | |- context [train_forecaster w (r0 :: rest) col_totalCost ?k ?h ?st] =>
      destruct (train_forecaster_cases w (r0 :: rest) col_totalCost k h st)
        as [E2 | [s2 [ts2 [fit2 [_ [_ [_ [_ E2]]]]]]]];
      rewrite E2; clear E2
  end;
  destruct (sklearn_fit w (r0 :: rest)) as [e5 | [clf acc]];
  try reflexivity;
  (erewrite forecast_endpoint_trained;
   [reflexivity | reflexivity | exact Hfit1 | reflexivity | reflexivity | exact Hd]).
Qed.

(** C3: after a startup in which the demand forecaster trains on 401
    days of history (days 0 to 400), [ArimaModel.forecast(7)] returns
    seven rows labelled with the days 401 to 407, and [forecast_demand]
    with [days = 7] answers 500 instead of seven dated entries:
    [pd.Timedelta(days=i)] is given the row's [Timestamp] label. *)
Theorem forecast_demand_answers_500_when_trained :
  option_map last_date
    (match dict_get "demand_history" (models (lifespan world_all_trained)) with
     | Some (VSeries h) => Some h
     | _ => None
     end) = Some 400 /\
  match forecast (statsmodels world_all_trained) registered_demand_model 7 with
  | inr df => map f_date df = [401; 402; 403; 404; 405; 406; 407]
  | inl _ => False
  end /\
  forecast_demand (statsmodels world_all_trained) (lifespan world_all_trained) 7
  = inl (HTTPException 500
           "Invalid type <class 'pandas._libs.tslibs.timestamps.Timestamp'>. Must be int or float.").
Proof. repeat split; vm_compute; reflexivity. Qed.
